(** * ZOOM-SE: the live emotion view and its engagement score

    A shallow embedding of the aggregation logic of the front end:
    - [handleEmotionUpdate] and [fetchSessionStats] of the live-session page
      (src/frontend/src/pages/Dashboard.jsx, component ZoomMeetingEnhanced),
    - the engagement-score block of src/frontend/src/components/EmotionStats.jsx,
    together with the session aggregate of the design document for the parts
    that live in the backend and are not in the front-end sources.

    JavaScript numbers are idealised as exact rationals ([Q]); a JS object used
    as a dictionary is a [gmap] keyed by strings; a JS array is a [list]. *)

From Stdlib Require Import ZArith QArith Qminmax Qround Qabs Lia Lqa.
From Stdlib Require Import DecimalString.
From stdpp Require Import base gmap strings list.

Local Open Scope Q_scope.

(** ** JavaScript values used by the page *)

(** The [timestamp] property of an entry.  The socket payload carries whatever
    the server sent ([TsWire]); the handler overwrites it with [new Date()]
    in the participant map and with [new Date().toLocaleTimeString()] in the
    timeline.  The clock reading is kept, not the rendered text. *)
Inductive Timestamp : Type :=
  | TsWire (t : Z)
  | TsDate (now : Z)
  | TsLocaleTimeString (now : Z).

(** The payload of an emotion update.  [emotion] is an arbitrary string, as
    in the page: nothing there restricts it to the seven labels. *)
Record EmotionData : Type := mkData {
  participantId : string;
  emotion : string;
  confidence : Q;
  timestamp : Timestamp
}.

(** [{ ...data, timestamp: ts }] *)
Definition with_timestamp (data : EmotionData) (ts : Timestamp) : EmotionData :=
  {| participantId := participantId data;
     emotion := emotion data;
     confidence := confidence data;
     timestamp := ts |}.

(** The React state and the ref of ZoomMeetingEnhanced that the handler
    touches. *)
Record ViewState : Type := mkView {
  participantEmotions : gmap string EmotionData;
  timelineDataRef : list EmotionData;
  emotionTimeline : list EmotionData
}.

(** [useState({})], [useRef([])], [useState([])] *)
Definition initialView : ViewState :=
  {| participantEmotions := ∅; timelineDataRef := []; emotionTimeline := [] |}.

Definition MAX_TIMELINE_POINTS : nat := 20.

(** [Array.prototype.shift]: drops the first element, if any. *)
Definition shift {A} (l : list A) : list A := tail l.

(** ** handleEmotionUpdate (Dashboard.jsx, lines 265-290)

    [now] is the reading of the clock during the call (the handler reads
    the clock twice, once per [new Date()]; one reading stands for both).
    The handler ends by calling [fetchSessionStats], which is modelled on
    its own below. *)
Definition handleEmotionUpdate (now : Z) (data : EmotionData) (st : ViewState)
  : ViewState :=
  let participantEmotions' :=
    <[participantId data := with_timestamp data (TsDate now)]>
      (participantEmotions st) in
  let timestamp := TsLocaleTimeString now in
  let newTimelineData := timelineDataRef st ++ [with_timestamp data timestamp] in
  let newTimelineData :=
    if (MAX_TIMELINE_POINTS <? length newTimelineData)%nat
    then shift newTimelineData else newTimelineData in
  {| participantEmotions := participantEmotions';
     timelineDataRef := newTimelineData;
     emotionTimeline := newTimelineData |}.

(** The page after a sequence of updates, each with the clock reading at its
    delivery, oldest first. *)
Definition deliver (updates : list (Z * EmotionData)) (st : ViewState) : ViewState :=
  fold_left (fun s u => handleEmotionUpdate (fst u) (snd u) s) updates st.

(** ** fetchSessionStats (Dashboard.jsx, lines 508-544) *)

(** [arr.slice(-n)]: the last [n] elements, the whole array when shorter. *)
Definition slice_last {A} (n : nat) (l : list A) : list A :=
  drop (length l - n) l.

(** [arr.includes(x)] on an array of strings *)
Definition includes (arr : list string) (x : string) : bool :=
  existsb (String.eqb x) arr.

Definition positiveEmotions : list string := ["happy"; "surprise"]%string.
Definition negativeEmotions : list string := ["sad"; "angry"; "fear"; "disgust"]%string.

(** The body of the [forEach]: the two counters are the state. *)
Definition count_step (counts : Z * Z) (e : EmotionData) : Z * Z :=
  let '(positiveCount, negativeCount) := counts in
  if includes positiveEmotions (emotion e) then ((positiveCount + 1)%Z, negativeCount)
  else if includes negativeEmotions (emotion e) then (positiveCount, (negativeCount + 1)%Z)
  else (positiveCount, negativeCount).

Definition count_emotions (recentEmotions : list EmotionData) : Z * Z :=
  fold_left count_step recentEmotions (0%Z, 0%Z).

(** [recentEmotions.length || 1] *)
Definition length_or_1 {A} (l : list A) : Z :=
  if (Z.of_nat (length l) =? 0)%Z then 1%Z else Z.of_nat (length l).

(** [Math.max(0, Math.min(100, 50 + ((positiveCount - negativeCount) / total) * 50))] *)
Definition score_of_counts (positiveCount negativeCount total : Z) : Q :=
  Qmax 0 (Qmin 100
    (50 + (inject_Z (positiveCount - negativeCount) / inject_Z total) * 50)).

Definition engagementScore (emotionTimeline : list EmotionData) : Q :=
  let recentEmotions := slice_last 10 emotionTimeline in
  let '(positiveCount, negativeCount) := count_emotions recentEmotions in
  let total := length_or_1 recentEmotions in
  score_of_counts positiveCount negativeCount total.

(** The alert object of the stats response. *)
Inductive AlertLevel : Type := low | high.

Record Alert : Type := mkAlert {
  level : AlertLevel;
  message : string;
  percentage : Q
}.

(** What [sessionAPI.getSessionStats] answers, as far as the page reads it. *)
Record StatsResponse : Type := mkResponse {
  success : bool;
  total_detections : Z;
  emotion_percentages : gmap string Q;
  resp_alert : option Alert
}.

(** The object given to [setSessionStats]. *)
Record SessionStats : Type := mkStats {
  response_fields : StatsResponse;
  engagement_score : Q;
  participant_count : nat
}.

(** [Object.keys(obj).length] *)
Definition keys_length {V} (obj : gmap string V) : nat := size obj.

(** [fetchSessionStats], from the moment the response has arrived: the new
    values of [sessionStats] and [alert], computed from the [emotionTimeline]
    and [participantEmotions] the function has in scope. *)
Definition fetchSessionStats (response : StatsResponse) (st : ViewState)
    (sessionStats : option SessionStats) (alert : option Alert)
  : option SessionStats * option Alert :=
  if success response then
    (Some {| response_fields := response;
             engagement_score := engagementScore (emotionTimeline st);
             participant_count := keys_length (participantEmotions st) |},
     match resp_alert response with
     | Some a => Some a
     | None => alert
     end)
  else (sessionStats, alert).

(** ** EmotionStats.jsx, the engagement-score block (lines 27-40) *)

(** The decimal digits of an integer, with a leading minus sign when
    negative. *)
Definition digits (n : Z) : string := NilZero.string_of_int (Z.to_int n).

Section NumberRendering.

(** [Number::toString] on a value that is not an integer below 10^21 (the
    shortest round-trip decimal, possibly with an exponent): not modelled,
    taken as given. *)
Variable fractional_toString : Q -> string.

(** [String(x)] *)
Definition Number_toString (x : Q) : string :=
  if Qeq_bool x (inject_Z (Qfloor x)) && (Z.abs (Qfloor x) <? 10 ^ 21)%Z
  then digits (Qfloor x)
  else fractional_toString x.

(** [x.toFixed(0)], by the steps of the language standard: the sign is
    split off; from 10^21 on the rest is [String(x)]; below, it is the
    integer nearest to x, the larger one on a tie. *)
Definition toFixed0 (x : Q) : string :=
  let s := if Qle_bool 0 x then ""%string else "-"%string in
  let x := Qabs x in
  let m :=
    if Qle_bool (inject_Z (10 ^ 21)) x then Number_toString x
    else digits (Qfloor (x + (1 # 2))) in
  (s ++ m)%string.

(** Truthiness of [stats.engagement_score]: [undefined] ([None]) and 0 are
    falsy, every other number is truthy. *)
Definition truthy (v : option Q) : bool :=
  match v with
  | None => false
  | Some x => negb (Qeq_bool x 0)
  end.

(** What the block shows: the text of the span and the width of the bar. *)
Record EngagementView : Type := mkEView {
  score_text : string;
  bar_width : string
}.

(** [{stats.engagement_score ? stats.engagement_score.toFixed(0) : 0}%] and
    [`${stats.engagement_score || 0}%`] *)
Definition renderEngagement (engagement_score : option Q) : EngagementView :=
  {| score_text :=
       ((match engagement_score with
         | Some x => if truthy (Some x) then toFixed0 x else Number_toString 0
         | None => Number_toString 0
         end) ++ "%")%string;
     bar_width :=
       (Number_toString
          (match engagement_score with
           | Some x => if truthy (Some x) then x else 0
           | None => 0
           end) ++ "%")%string |}.

End NumberRendering.

(** * The session aggregate of the design document

    The validator, the tracker with its timestamp guard, the cumulative
    aggregator, the alert evaluator and the Active/Stopped facade run in the
    backend; the front-end sources only consume their results
    ([sessionAPI.getSessionStats], [sessionAPI.stopSession]).  They are
    modelled here from the design document (sections 3, 4 and 7). *)

Module Design.

(** Modelled from the spec: the closed label set of section 3 (the backend
    type is missing from the sources). *)
Inductive EmotionLabel : Type :=
  | happy | sad | angry | surprise | fear | disgust | neutral.

Definition all_labels : list EmotionLabel :=
  [happy; sad; angry; surprise; fear; disgust; neutral].

Definition label_eqb (a b : EmotionLabel) : bool :=
  match a, b with
  | happy, happy | sad, sad | angry, angry | surprise, surprise
  | fear, fear | disgust, disgust | neutral, neutral => true
  | _, _ => false
  end.

Definition label_name (l : EmotionLabel) : string :=
  match l with
  | happy => "happy" | sad => "sad" | angry => "angry"
  | surprise => "surprise" | fear => "fear" | disgust => "disgust"
  | neutral => "neutral"
  end%string.

(** The label a string names, if it is in the closed set. *)
Definition parse_label (s : string) : option EmotionLabel :=
  find (fun l => String.eqb s (label_name l)) all_labels.

(** Modelled from the spec: the EmotionEvent of section 3 and the raw event
    given to the validator of section 4.1 (the backend validator is missing
    from the sources).  A raw confidence is a number or something else. *)
Inductive RawConfidence : Type :=
  | Numeric (c : Q)
  | NonNumeric (s : string).

Record RawEvent : Type := mkRaw {
  raw_sessionId : string;
  raw_participantId : string;
  raw_emotion : string;
  raw_confidence : RawConfidence;
  raw_timestamp : Z
}.

Record EmotionEvent : Type := mkEvent {
  ev_sessionId : string;
  ev_participantId : string;
  ev_emotion : EmotionLabel;
  ev_confidence : Q;
  ev_timestamp : Z
}.

(** The typed validation error names the field that failed. *)
Inductive ValidationError : Type :=
  | InvalidEmotion
  | InvalidConfidence
  | EmptySessionId
  | EmptyParticipantId.

Inductive result (E A : Type) : Type :=
  | Ok (a : A)
  | Err (e : E).
Arguments Ok {E A} a.
Arguments Err {E A} e.

Definition is_empty (s : string) : bool := String.eqb s ""%string.

(** Modelled from the spec: [normalize] of section 4.1, the three rejections
    in the order the section lists them. *)
Definition normalize (raw : RawEvent) : result ValidationError EmotionEvent :=
  match parse_label (raw_emotion raw) with
  | None => Err InvalidEmotion
  | Some l =>
    match raw_confidence raw with
    | NonNumeric _ => Err InvalidConfidence
    | Numeric c =>
      if negb (Qle_bool 0 c && Qle_bool c 100) then Err InvalidConfidence
      else if is_empty (raw_sessionId raw) then Err EmptySessionId
      else if is_empty (raw_participantId raw) then Err EmptyParticipantId
      else Ok {| ev_sessionId := raw_sessionId raw;
                 ev_participantId := raw_participantId raw;
                 ev_emotion := l;
                 ev_confidence := c;
                 ev_timestamp := raw_timestamp raw |}
    end
  end.

(** Modelled from the spec: the ParticipantState map of the backend
    aggregate with the [update] of section 4.2 (missing from the sources; the
    page's own map is [participantEmotions] above, written by
    [handleEmotionUpdate]). *)
Record ParticipantState : Type := mkPState {
  ps_participantId : string;
  lastEmotion : EmotionLabel;
  lastConfidence : Q;
  lastUpdated : Z
}.

Definition state_of_event (event : EmotionEvent) : ParticipantState :=
  {| ps_participantId := ev_participantId event;
     lastEmotion := ev_emotion event;
     lastConfidence := ev_confidence event;
     lastUpdated := ev_timestamp event |}.

Definition update (participants : gmap string ParticipantState)
    (event : EmotionEvent) : gmap string ParticipantState :=
  match participants !! ev_participantId event with
  | None => <[ev_participantId event := state_of_event event]> participants
  | Some existing =>
    if (lastUpdated existing <=? ev_timestamp event)%Z
    then <[ev_participantId event := state_of_event event]> participants
    else participants
  end.

(** Modelled from the spec: the aggregator of section 4.3 (missing from the
    sources).  [emotionCounts] maps every label to its cumulative count. *)
Definition increment (counts : EmotionLabel -> nat) (l : EmotionLabel)
  : EmotionLabel -> nat :=
  fun l' => if label_eqb l' l then S (counts l') else counts l'.

Definition totalAcceptedEvents (counts : EmotionLabel -> nat) : nat :=
  foldr (fun l acc => (counts l + acc)%nat) 0%nat all_labels.

Definition summaryPercentages (counts : EmotionLabel -> nat)
  : EmotionLabel -> Q :=
  fun l =>
    if (totalAcceptedEvents counts =? 0)%nat then 0
    else inject_Z (Z.of_nat (counts l))
         / inject_Z (Z.of_nat (totalAcceptedEvents counts)) * 100.

Definition sum_percentages (p : EmotionLabel -> Q) : Q :=
  foldr (fun l acc => p l + acc) 0 all_labels.

(** Modelled from the spec: the engagement scorer of section 4.4, in the
    words of its three steps (kept apart from [engagementScore] above, which
    is the page's code). *)
Definition W : nat := 10.

Inductive Polarity : Type := POSITIVE | NEGATIVE | NEUTRAL.

#[global] Instance Polarity_eq_dec : EqDecision Polarity.
Proof. solve_decision. Defined.

Definition classify (l : EmotionLabel) : Polarity :=
  match l with
  | happy | surprise => POSITIVE
  | sad | angry | fear | disgust => NEGATIVE
  | neutral => NEUTRAL
  end.

(** Step 1: the most recent [W] events, in insertion order. *)
Definition window {A} (events : list A) : list A := rev (take W (rev events)).

(** Step 2: how many events of the window fall in a class. *)
Definition count_class (c : Polarity) (w : list EmotionLabel) : nat :=
  length (filter (fun l => classify l = c) w).

Definition clamp (x lo hi : Q) : Q :=
  if Qlt_le_dec x lo then lo
  else if Qlt_le_dec hi x then hi
  else x.

(** Step 3, on the labels of the events in insertion order. *)
Definition score_labels (labels : list EmotionLabel) : Q :=
  let w := window labels in
  let positiveCount := inject_Z (Z.of_nat (count_class POSITIVE w)) in
  let negativeCount := inject_Z (Z.of_nat (count_class NEGATIVE w)) in
  let windowSize := Z.of_nat (length w) in
  clamp (50 + ((positiveCount - negativeCount) / inject_Z (Z.max 1 windowSize)) * 50)
        0 100.

Definition score (timeline : list EmotionEvent) : Q :=
  score_labels (map ev_emotion timeline).

(** Modelled from the spec: the Timeline Recorder of section 4.6. *)
Definition append (timeline : list EmotionEvent) (event : EmotionEvent)
  : list EmotionEvent := timeline ++ [event].

Section Engine.

(** The templated message of an alert; the design document does not give its
    wording. *)
Variable alert_message : AlertLevel -> Q -> string.

(** Modelled from the spec: the Alert Evaluator of section 4.5 (the backend
    evaluator is missing from the sources; the page only shows its result). *)
Definition disengagedPct (percentages : EmotionLabel -> Q) : Q :=
  percentages sad + percentages angry + percentages fear + percentages disgust.

Definition evaluate (percentages : EmotionLabel -> Q) : option Alert :=
  let d := disengagedPct percentages in
  if Qle_bool 60 d then
    Some {| level := high; message := alert_message high d; percentage := d |}
  else if Qle_bool 35 d then
    Some {| level := low; message := alert_message low d; percentage := d |}
  else None.

(** Modelled from the spec: the SessionAggregate of section 3 and the facade
    of section 4.7 (the backend session store is missing from the sources). *)
Record SessionAggregate : Type := mkAggregate {
  sessionId : string;
  startTime : Z;
  endTime : option Z;
  participants : gmap string ParticipantState;
  emotionCounts : EmotionLabel -> nat;
  timeline : list EmotionEvent;
  engagementScore : Q;
  alertState : option Alert
}.

Inductive SessionState : Type := Active | Stopped.

(** [endTime] is null while the session is active. *)
Definition state (a : SessionAggregate) : SessionState :=
  match endTime a with
  | None => Active
  | Some _ => Stopped
  end.

Definition start (sid : string) (now : Z) : SessionAggregate :=
  {| sessionId := sid;
     startTime := now;
     endTime := None;
     participants := ∅;
     emotionCounts := fun _ => 0%nat;
     timeline := [];
     engagementScore := score [];
     alertState := None |}.

(** An accepted event goes through the tracker, the aggregator, the scorer,
    the alert evaluator and the recorder; the score is taken over the
    timeline that already holds the event. *)
Definition accept (event : EmotionEvent) (a : SessionAggregate)
  : SessionAggregate :=
  let participants' := update (participants a) event in
  let counts' := increment (emotionCounts a) (ev_emotion event) in
  let timeline' := append (timeline a) event in
  {| sessionId := sessionId a;
     startTime := startTime a;
     endTime := endTime a;
     participants := participants';
     emotionCounts := counts';
     timeline := timeline';
     engagementScore := score timeline';
     alertState := evaluate (summaryPercentages counts') |}.

Inductive IngestError : Type :=
  | ValidationFailed (e : ValidationError)
  | StateError.

(** [ingest]: a no-op with a [StateError] on a stopped aggregate, a no-op
    with the validation error on a rejected event. *)
Definition ingest (raw : RawEvent) (a : SessionAggregate)
  : SessionAggregate * option IngestError :=
  match state a with
  | Stopped => (a, Some StateError)
  | Active =>
    match normalize raw with
    | Err e => (a, Some (ValidationFailed e))
    | Ok event => (accept event a, None)
    end
  end.

Definition stop (now : Z) (a : SessionAggregate) : SessionAggregate :=
  {| sessionId := sessionId a;
     startTime := startTime a;
     endTime := Some now;
     participants := participants a;
     emotionCounts := emotionCounts a;
     timeline := timeline a;
     engagementScore := engagementScore a;
     alertState := alertState a |}.

End Engine.

End Design.

(** * Auxiliary definitions for the statements *)

(** The entry the handler appends for an update. *)
Definition stamp (u : Z * EmotionData) : EmotionData :=
  with_timestamp (snd u) (TsLocaleTimeString (fst u)).

(** The ref and the state hold the same bounded array. *)
Definition timeline_ok (st : ViewState) : Prop :=
  emotionTimeline st = timelineDataRef st
  /\ (length (timelineDataRef st) <= MAX_TIMELINE_POINTS)%nat.

(** Twenty-one updates of one participant, delivered at clock readings
    1, 2, ..., 21. *)
Definition update_at (n : nat) : Z * EmotionData :=
  (Z.of_nat n, mkData "P1" "happy" 90 (TsWire (Z.of_nat n))).

Definition twenty_one_updates : list (Z * EmotionData) :=
  map update_at (seq 1 21).


(** Three accepted events: P1 happy, P2 sad, P1 happy. *)
Definition three_updates : list (Z * EmotionData) :=
  [(1%Z, mkData "P1" "happy" 90 (TsWire 1));
   (2%Z, mkData "P2" "sad" 80 (TsWire 2));
   (3%Z, mkData "P1" "happy" 85 (TsWire 3))].

Definition three_labels : list Design.EmotionLabel :=
  [Design.happy; Design.sad; Design.happy].

Definition neutral_event : EmotionData :=
  mkData "P1" "neutral" 70 (TsWire 1).

(** Participant P reports happy with timestamp 10; a late event of P with
    timestamp 5 (sad) is delivered after it. *)
Definition late_pair : list (Z * EmotionData) :=
  [(100%Z, mkData "P" "happy" 90 (TsWire 10));
   (101%Z, mkData "P" "sad" 80 (TsWire 5))].

(** The ids of the participants of a sequence of updates. *)
Definition ids_of (updates : list (Z * EmotionData)) : list string :=
  map (fun u => participantId (snd u)) updates.

(** Percentages whose only non-zero share is that of [sad]. *)
Definition only_sad (x : Q) : Design.EmotionLabel -> Q :=
  fun l => if Design.label_eqb l Design.sad then x else 0.

(** The names of the closed label set. *)
Definition label_names : list string :=
  ["happy"; "sad"; "angry"; "surprise"; "fear"; "disgust"; "neutral"]%string.

(** A message template for the examples. *)
Definition plain_message (l : AlertLevel) (d : Q) : string :=
  match l with
  | high => "High disengagement"
  | low => "Some disengagement"
  end%string.

Definition raw_happy : Design.RawEvent :=
  Design.mkRaw "S1" "P1" "happy" (Design.Numeric 90) 1.

Definition raw_sad : Design.RawEvent :=
  Design.mkRaw "S1" "P2" "sad" (Design.Numeric 80) 2.

Definition raw_bored : Design.RawEvent :=
  Design.mkRaw "S1" "P1" "bored" (Design.Numeric 90) 1.

Definition raw_overconfident : Design.RawEvent :=
  Design.mkRaw "S1" "P1" "happy" (Design.Numeric 101) 1.

(** Counts with two happy and one sad event. *)
Definition counts_2_1 : Design.EmotionLabel -> nat :=
  Design.increment
    (Design.increment (Design.increment (fun _ => 0%nat) Design.happy)
       Design.sad) Design.happy.

(** The three reasons for which the validator of section 4.1 rejects. *)
Definition invalid (raw : Design.RawEvent) : Prop :=
  ~ In (Design.raw_emotion raw) label_names
  \/ match Design.raw_confidence raw with
     | Design.Numeric c => ~ (0 <= c /\ c <= 100)
     | Design.NonNumeric _ => True
     end
  \/ Design.raw_sessionId raw = ""%string
  \/ Design.raw_participantId raw = ""%string.

(** A sequence of ingests, oldest first. *)
Definition ingest_all (alert_message : AlertLevel -> Q -> string)
    (raws : list Design.RawEvent) (a : Design.SessionAggregate)
  : Design.SessionAggregate :=
  fold_left (fun s r => fst (Design.ingest alert_message r s)) raws a.

(** The end-to-end scenario of section 8: P1 happy, P2 sad, P1 happy. *)
Definition raw_happy_again : Design.RawEvent :=
  Design.mkRaw "S1" "P1" "happy" (Design.Numeric 85) 3.

Definition scenario : Design.SessionAggregate :=
  ingest_all plain_message [raw_happy; raw_sad; raw_happy_again]
    (Design.start "S1" 0).

(** * The rest of the live page *)

(** The page's [sessionStats] and [alert] after a sequence of answers to
    [fetchSessionStats], each with the view it found, oldest first. *)
Definition poll (answers : list (StatsResponse * ViewState))
    (s : option SessionStats * option Alert)
  : option SessionStats * option Alert :=
  fold_left (fun acc ans => fetchSessionStats (fst ans) (snd ans) (fst acc) (snd acc))
            answers s.

(** An answer that changes the page's alert: a successful one that carries
    an alert. *)
Definition carries_alert (ans : StatsResponse * ViewState) : Prop :=
  success (fst ans) = true /\ is_Some (resp_alert (fst ans)).

Definition failed_response : StatsResponse := mkResponse false 0 ∅ None.

Definition quiet_response : StatsResponse := mkResponse true 3 ∅ None.

Definition sample_alert : Alert := mkAlert high "High disengagement" 75.

(** Ten happy events after one sad one. *)
Definition happy_update (n : nat) : Z * EmotionData :=
  (Z.of_nat n, mkData "P1" "happy" 90 (TsWire (Z.of_nat n))).

Definition sad_update : Z * EmotionData :=
  (0%Z, mkData "P2" "sad" 80 (TsWire 0)).

Definition ten_happy : list (Z * EmotionData) := map happy_update (seq 1 10).

Definition is_positive (e : EmotionData) : Prop :=
  includes positiveEmotions (emotion e) = true.

Definition is_negative (e : EmotionData) : Prop :=
  includes negativeEmotions (emotion e) = true.

Definition angry_event : EmotionData := mkData "P3" "angry" 60 (TsWire 2).

Definition surprise_event : EmotionData := mkData "P4" "surprise" 60 (TsWire 2).

Definition alerting_response : StatsResponse :=
  mkResponse true 4 ∅ (Some sample_alert).

(** ** EmotionTimelineChart (Dashboard.jsx, lines 835-876) *)

(** The literal [emotionColors] of the chart, in the order of its keys. *)
Definition emotionColors : list (string * string) :=
  [("happy", "#10B981"); ("sad", "#3B82F6"); ("angry", "#EF4444");
   ("surprise", "#F59E0B"); ("fear", "#8B5CF6"); ("disgust", "#F97316");
   ("neutral", "#6B7280")]%string.

(** [Object.keys(obj)] of an object given by its own properties in
    enumeration order. *)
Definition Object_keys {V} (obj : list (string * V)) : list string := map fst obj.

(** The property names every plain object inherits from [Object.prototype];
    each of them holds a function or an object. *)
Definition Object_prototype_names : list string :=
  ["constructor"; "__defineGetter__"; "__defineSetter__"; "hasOwnProperty";
   "__lookupGetter__"; "__lookupSetter__"; "isPrototypeOf";
   "propertyIsEnumerable"; "toString"; "valueOf"; "__proto__";
   "toLocaleString"]%string.

(** The own property [key] of an object. *)
Fixpoint own_property {V} (key : string) (obj : list (string * V)) : option V :=
  match obj with
  | [] => None
  | (k, v) :: rest => if String.eqb key k then Some v else own_property key rest
  end.

(** The object after its own property [key], if any, has been changed by
    [f] (the arrays of [emotions] are changed in place). *)
Fixpoint alter_property {V} (f : V -> V) (key : string) (obj : list (string * V))
  : list (string * V) :=
  match obj with
  | [] => []
  | (k, v) :: rest =>
    if String.eqb key k then (k, f v) :: rest
    else (k, v) :: alter_property f key rest
  end.

(** What [emotions[key]] evaluates to. *)
Inductive Property : Type :=
  | OwnArray (values : list Q)
  | Inherited
  | Undefined.

Definition get_property (emotions : list (string * list Q)) (key : string)
  : Property :=
  match own_property key emotions with
  | Some values => OwnArray values
  | None => if includes Object_prototype_names key then Inherited else Undefined
  end.

(** Truthiness of a string: only the empty string is falsy. *)
Definition truthy_string (s : string) : bool := negb (String.eqb s ""%string).

(** [x || 0] on a number *)
Definition or_0 (x : Q) : Q := if Qeq_bool x 0 then 0 else x.

(** The body of the second [forEach]; [None] is the TypeError of assigning
    to a property of [undefined].  A write through an inherited name lands
    on the inherited object and leaves [emotions] as it is. *)
Definition fill_entry (idx : nat) (entry : EmotionData)
    (emotions : list (string * list Q)) : option (list (string * list Q)) :=
  if truthy_string (emotion entry) then
    match get_property emotions (emotion entry) with
    | OwnArray _ =>
      Some (alter_property (fun values => <[idx := or_0 (confidence entry)]> values)
              (emotion entry) emotions)
    | Inherited => Some emotions
    | Undefined => None
    end
  else Some emotions.

(** [data.forEach((entry, idx) => ...)] from index [idx] on. *)
Fixpoint fill_from (idx : nat) (data : list EmotionData)
    (emotions : list (string * list Q)) : option (list (string * list Q)) :=
  match data with
  | [] => Some emotions
  | entry :: rest =>
    match fill_entry idx entry emotions with
    | Some emotions' => fill_from (S idx) rest emotions'
    | None => None
    end
  end.

(** [c.toUpperCase()] on an ASCII character *)
Definition toUpperCase (c : Ascii.ascii) : Ascii.ascii :=
  let n := Ascii.nat_of_ascii c in
  if ((97 <=? n) && (n <=? 122))%nat then Ascii.ascii_of_nat (n - 32) else c.

(** [s.charAt(0).toUpperCase() + s.slice(1)] on an ASCII string *)
Definition capitalize (s : string) : string :=
  match s with
  | EmptyString => EmptyString
  | String c rest => String (toUpperCase c) rest
  end.

Record Dataset : Type := mkDataset {
  ds_label : string;
  ds_data : list Q;
  borderColor : option string;
  backgroundColor : string
}.

Record ChartData : Type := mkChart {
  labels : list string;
  datasets : list Dataset
}.

(** [`${color}40`], where a missing colour prints as undefined *)
Definition with_alpha (color : option string) : string :=
  (match color with
   | Some c => c
   | None => "undefined"
   end ++ "40")%string.

(** The [chartData] of the component; [None] when the computation throws. *)
Definition chartData (data : list EmotionData) : option ChartData :=
  let labels :=
    rev (imap (fun index _ =>
                 ("T-" ++ digits (Z.of_nat (length data - index)))%string) data) in
  let emotions :=
    map (fun emotion => (emotion, replicate (length data) (0 : Q)))
        (Object_keys emotionColors) in
  match fill_from 0 data emotions with
  | None => None
  | Some emotions =>
    Some {| labels := labels;
            datasets :=
              map (fun '(emotion, values) =>
                     {| ds_label := capitalize emotion;
                        ds_data := values;
                        borderColor := own_property emotion emotionColors;
                        backgroundColor :=
                          with_alpha (own_property emotion emotionColors) |})
                  emotions |}
  end.

(** The emotions on which the chart throws: non-empty, not a key of
    [emotionColors], not a name inherited from [Object.prototype]. *)
Definition unknown_emotion (s : string) : Prop :=
  s <> ""%string
  /\ ~ In s (Object_keys emotionColors)
  /\ ~ In s Object_prototype_names.

(** The arrays of [emotions] while they are filled: one per key of
    [emotionColors], in that order, each of length [n]. *)
Definition emotions_ok (n : nat) (emotions : list (string * list Q)) : Prop :=
  Object_keys emotions = Object_keys emotionColors
  /\ Forall (fun kv => length (snd kv) = n) emotions.

Definition bored_event : EmotionData := mkData "P5" "bored" 60 (TsWire 3).

Definition sample_chart : ChartData :=
  default (mkChart [] []) (chartData [neutral_event; angry_event]).

Definition sample_dataset : Dataset :=
  default (mkDataset "" [] None "") (datasets sample_chart !! 2%nat).

Definition bored_update : Z * EmotionData := (5%Z, bored_event).

(** * The dashboard of past sessions (Dashboard.jsx, component Dashboard) *)

(** [Math.round(x)]: the nearest integer, the larger one on a tie. *)
Definition Math_round (x : Q) : Z := Qfloor (x + (1 # 2)).

Module DashboardPage.

(** A session report as the dashboard reads it.  Times are the instants (in
    milliseconds) that [new Date(...)] makes of the date strings;
    [end_time] is [None] for null or absent, [total_detections] is [None]
    when absent. *)
Record Report : Type := mkReport {
  session_id : string;
  session_name : string;
  start_time : Z;
  end_time : option Z;
  total_detections : option Z
}.

Record Stats : Type := mkStats {
  total : Z;
  active : Z;
  completed : Z;
  totalDetections : Z
}.

(** [!!r.end_time] *)
Definition has_ended (r : Report) : bool :=
  match end_time r with
  | Some _ => true
  | None => false
  end.

(** [r.total_detections || 0] *)
Definition detections_or_0 (r : Report) : Z :=
  match total_detections r with
  | Some n => if (n =? 0)%Z then 0%Z else n
  | None => 0%Z
  end.

(** The [stats] of the component (lines 44-50). *)
Definition stats (reports : list Report) : Stats :=
  let total := Z.of_nat (length reports) in
  let completed := Z.of_nat (length (List.filter has_ended reports)) in
  let active := (total - completed)%Z in
  let totalDetections :=
    fold_left (fun sum r => (sum + detections_or_0 r)%Z) reports 0%Z in
  {| total := total; active := active; completed := completed;
     totalDetections := totalDetections |}.

(** The Duration cell of a row (line 194): the minutes between start and
    end, rounded, or the words In progress. *)
Inductive DurationCell : Type :=
  | Minutes (n : Z)
  | InProgress.

Definition durationCell (report : Report) : DurationCell :=
  match end_time report with
  | Some e => Minutes (Math_round (inject_Z (e - start_time report) / 60000))
  | None => InProgress
  end.

(** The text of the cell: [`${n} min`] or ['In progress']. *)
Definition cell_text (c : DurationCell) : string :=
  match c with
  | Minutes n => (digits n ++ " min")%string
  | InProgress => "In progress"%string
  end.

Definition is_in_progress (c : DurationCell) : bool :=
  match c with
  | InProgress => true
  | Minutes _ => false
  end.

End DashboardPage.

Definition finished_report : DashboardPage.Report :=
  DashboardPage.mkReport "s1" "Monday" 0%Z (Some 100000%Z) (Some 12%Z).

Definition running_report : DashboardPage.Report :=
  DashboardPage.mkReport "s2" "Tuesday" 500%Z None None.

(** * The timeline table of the session report (SessionReport.jsx,
      lines 162-211) *)

(** [report.timeline.slice(-20).reverse()]: the rows of the table. *)
Definition timelineRows {A} (timeline : list A) : list A :=
  rev (slice_last 20 timeline).

(** [report.timeline && report.timeline.length > 0]: whether the section is
    rendered at all ([None] is a missing timeline). *)
Definition timelineSection {A} (timeline : option (list A)) : bool :=
  match timeline with
  | Some tl => (0 <? length tl)%nat
  | None => false
  end.

(** [report.timeline.length > 20]: whether the note "Showing last 20
    entries out of N total" is shown. *)
Definition showsLast20Note {A} (timeline : list A) : bool :=
  (20 <? length timeline)%nat.

(** * Number formatting with decimals, and the displays that use it *)

(** ["0".repeat(n)] *)
Fixpoint zeros (n : nat) : string :=
  match n with
  | O => EmptyString
  | S n => ("0" ++ zeros n)%string
  end.

(** The last steps of [toFixed(f)] on the digits [m] of the scaled integer:
    for f > 0 the digits are padded with zeros to f + 1 characters and the
    point is put before the last f. *)
Definition insert_point (f : nat) (m : string) : string :=
  if (f =? 0)%nat then m
  else
    let k := String.length m in
    let m := if (k <=? f)%nat then (zeros (f + 1 - k) ++ m)%string else m in
    let k := String.length m in
    (String.substring 0 (k - f) m ++ "." ++ String.substring (k - f) f m)%string.

Section DecimalRendering.

Variable fractional_toString : Q -> string.

(** [x.toFixed(f)], by the steps of the language standard. *)
Definition toFixed (f : nat) (x : Q) : string :=
  let s := if Qle_bool 0 x then ""%string else "-"%string in
  let x := Qabs x in
  let m :=
    if Qle_bool (inject_Z (10 ^ 21)) x
    then Number_toString fractional_toString x
    else insert_point f
           (digits (Qfloor (x * inject_Z (10 ^ Z.of_nat f) + (1 # 2)))) in
  (s ++ m)%string.

(** ** The alert banner of the live page (Dashboard.jsx, lines 636-653) *)

Record Banner : Type := mkBanner {
  banner_class : string;
  banner_message : string;
  banner_detail : string
}.

(** [None] when no banner is rendered. *)
Definition alertBanner (alert : option Alert) : option Banner :=
  match alert with
  | None => None
  | Some a =>
    Some {| banner_class :=
              match level a with
              | high => "bg-red-100 border-red-500 text-red-700"
              | low => "bg-yellow-100 border-yellow-500 text-yellow-700"
              end%string;
            banner_message := message a;
            banner_detail :=
              ("Disengagement: " ++ toFixed 1 (percentage a) ++ "%")%string |}
  end.

(** ** FloatingStatsWindow (unnamed/part_000, lines 66-70 and 113-131) *)

(** [score >= c], false when the score is undefined *)
Definition score_ge (score : option Q) (c : Q) : bool :=
  match score with
  | Some x => Qle_bool c x
  | None => false
  end.

Definition getEngagementColor (score : option Q) : string :=
  if score_ge score 70 then "text-green-600"%string
  else if score_ge score 40 then "text-yellow-600"%string
  else "text-red-600"%string.

(** The class of the bar, chosen by the same two comparisons. *)
Definition engagementBarColor (score : option Q) : string :=
  if score_ge score 70 then "bg-green-500"%string
  else if score_ge score 40 then "bg-yellow-500"%string
  else "bg-red-500"%string.

(** [{Math.round(stats.engagement_score)}%]; an undefined score rounds to
    NaN. *)
Definition floatingScoreText (score : option Q) : string :=
  (match score with
   | Some x => Number_toString fractional_toString (inject_Z (Math_round x))
   | None => "NaN"
   end ++ "%")%string.

(** ** The tooltip of EmotionChart (EmotionChart.jsx, lines 50-56) *)

(** [total > 0] *)
Definition is_positive_number (x : Q) : bool := negb (Qle_bool x 0).

Definition tooltipLabel (label : string) (parsed : Q) (data : list Q) : string :=
  let value := or_0 parsed in
  let total := fold_left Qplus data 0 in
  let percentage :=
    if is_positive_number total then toFixed 1 ((value / total) * 100)
    else Number_toString fractional_toString 0 in
  (label ++ ": " ++ Number_toString fractional_toString value
   ++ " (" ++ percentage ++ "%)")%string.

End DecimalRendering.

Definition no_fraction (x : Q) : string := ""%string.

Definition low_alert : Alert := mkAlert low "Some disengagement" (425 # 10).

(** * The detected-faces list of the screen-capture page
      (ZoomMeetingScreenCapture.jsx, lines 181-191) *)

(** The updater given to [setDetectedFaces]: push unless 50 faces are
    held, then keep the last 10. *)
Definition pushDetectedFace {A} (face : A) (prev : list A) : list A :=
  let newFaces := if (length prev <? 50)%nat then prev ++ [face] else prev in
  slice_last 10 newFaces.

(** The list after a sequence of detections, oldest first. *)
Definition detect_all {A} (faces : list A) (prev : list A) : list A :=
  fold_left (fun acc face => pushDetectedFace face acc) faces prev.

(** * The page as it runs: renders, effects and the closures they keep

    Every render of ZoomMeetingEnhanced makes a new [fetchSessionStats],
    which reads the [emotionTimeline] and [participantEmotions] of that
    render; a call of the function is therefore [fetchSessionStats] above at
    the view of the render that made it.  Two effects keep such a function:
    - the effect with dependencies [sessionId] (lines 259-304) runs after the
      first render and registers [handleEmotionUpdate], whose call of
      [fetchSessionStats] (line 289) is the first render's;
    - the effect with dependencies [isTracking] (lines 561-566) runs when
      tracking starts and gives that render's [fetchSessionStats] to
      [setInterval]; its cleanup clears the interval when tracking stops. *)

(** The state of the first render: [useState([])] and [useState({})]. *)
Definition first_render : ViewState := initialView.

Record Page : Type := mkPage {
  view : ViewState;
  sessionStats : option SessionStats;
  alert : option Alert;
  isTracking : bool;
  interval : option ViewState
}.

(** [useState(null)] twice, [useState(false)], no interval. *)
Definition initialPage : Page :=
  {| view := initialView; sessionStats := None; alert := None;
     isTracking := false; interval := None |}.

(** What happens to the page.  The answer to a stats request is taken to
    arrive before the next event. *)
Inductive PageEvent : Type :=
  | EmotionUpdate (now : Z) (data : EmotionData) (response : StatsResponse)
  | StartTracking
  | StopTracking
  | IntervalTick (response : StatsResponse).

Definition page_step (p : Page) (ev : PageEvent) : Page :=
  match ev with
  | EmotionUpdate now data response =>
    let r := fetchSessionStats response first_render (sessionStats p) (alert p) in
    {| view := handleEmotionUpdate now data (view p);
       sessionStats := fst r;
       alert := snd r;
       isTracking := isTracking p;
       interval := interval p |}
  | StartTracking =>
    if isTracking p then p
    else {| view := view p; sessionStats := sessionStats p; alert := alert p;
            isTracking := true; interval := Some (view p) |}
  | StopTracking =>
    {| view := view p; sessionStats := sessionStats p; alert := alert p;
       isTracking := false; interval := None |}
  | IntervalTick response =>
    match interval p with
    | Some rendered =>
      let r := fetchSessionStats response rendered (sessionStats p) (alert p) in
      {| view := view p; sessionStats := fst r; alert := snd r;
         isTracking := isTracking p; interval := interval p |}
    | None => p
    end
  end.

Definition run_page (events : list PageEvent) (p : Page) : Page :=
  fold_left page_step events p.

(** The updates among the events, in order. *)
Definition updates_of (events : list PageEvent) : list (Z * EmotionData) :=
  omap (fun ev => match ev with
                  | EmotionUpdate now data _ => Some (now, data)
                  | _ => None
                  end) events.

Definition is_update (ev : PageEvent) : Prop :=
  match ev with
  | EmotionUpdate _ _ _ => True
  | _ => False
  end.

(** Ten angry events of one participant, each followed by a successful
    answer to the stats request. *)
Definition angry_at (n : nat) : PageEvent :=
  EmotionUpdate (Z.of_nat n) (mkData "P1" "angry" 90 (TsWire (Z.of_nat n)))
    quiet_response.

Definition ten_angry_events : list PageEvent := map angry_at (seq 1 10).

(** Three happy events, then tracking starts, then ten angry events, then
    the interval fires. *)
Definition happy_at (n : nat) : PageEvent :=
  EmotionUpdate (Z.of_nat n) (mkData "P1" "happy" 90 (TsWire (Z.of_nat n)))
    quiet_response.

Definition three_happy_events : list PageEvent := map happy_at (seq 1 3).

(** Two participants report, tracking starts and the interval fires; then a
    third participant reports. *)
Definition two_then_tick : list PageEvent :=
  [EmotionUpdate 1 (mkData "P1" "happy" 90 (TsWire 1)) quiet_response;
   EmotionUpdate 2 (mkData "P2" "sad" 80 (TsWire 2)) quiet_response;
   StartTracking;
   IntervalTick quiet_response].

Definition third_joins : PageEvent :=
  EmotionUpdate 3 (mkData "P3" "neutral" 70 (TsWire 3)) quiet_response.
(** * Properties of the page's timeline *)

Section Timeline.

Context {A : Type}.
Implicit Types l a b : list A.

Lemma slice_last_length n l : length (slice_last n l) = Nat.min (length l) n.
Proof. unfold slice_last. rewrite length_drop. lia. Qed.

Lemma slice_last_all n l : (length l <= n)%nat -> slice_last n l = l.
Proof.
  intros Hle. unfold slice_last.
  replace (length l - n)%nat with 0%nat by lia. reflexivity.
Qed.

(** Dropping a prefix that lies outside the last [n] elements does not
    change them. *)
Lemma slice_last_drop_app n k a b :
  (k <= length a + length b - n)%nat -> (k <= length a)%nat ->
  slice_last n (drop k a ++ b) = slice_last n (a ++ b).
Proof.
  intros Hk Hka. unfold slice_last.
  rewrite <- (drop_app_le a b k) by exact Hka.
  rewrite drop_drop, length_drop, length_app.
  f_equal. lia.
Qed.

Lemma slice_last_slice_last_app n a b :
  slice_last n (slice_last n a ++ b) = slice_last n (a ++ b).
Proof.
  unfold slice_last at 2. apply slice_last_drop_app; lia.
Qed.

Lemma slice_last_slice_last n m l :
  (n <= m)%nat -> slice_last n (slice_last m l) = slice_last n l.
Proof.
  intros Hnm. unfold slice_last.
  rewrite drop_drop, length_drop. f_equal. lia.
Qed.

(** One step of the handler's array code: append, then shift when the
    array has grown beyond the bound. *)
Lemma push_bounded l x :
  (length l <= MAX_TIMELINE_POINTS)%nat ->
  (if (MAX_TIMELINE_POINTS <? length (l ++ [x]))%nat
   then shift (l ++ [x]) else l ++ [x])
  = slice_last MAX_TIMELINE_POINTS (l ++ [x]).
Proof.
  intros Hlen. unfold slice_last. rewrite length_app. simpl.
  destruct (Nat.ltb_spec MAX_TIMELINE_POINTS (length l + 1)) as [Hlt|Hge].
  - replace (length l + 1 - MAX_TIMELINE_POINTS)%nat with 1%nat by lia.
    destruct l; reflexivity.
  - replace (length l + 1 - MAX_TIMELINE_POINTS)%nat with 0%nat by lia.
    reflexivity.
Qed.

(** The spec's window (first [W] of the reversed list, restored) is the
    page's [slice(-10)]. *)
Lemma window_slice_last l : Design.window l = slice_last 10 l.
Proof.
  unfold Design.window, slice_last, Design.W.
  rewrite firstn_rev, rev_involutive. reflexivity.
Qed.

End Timeline.

Lemma handleEmotionUpdate_timeline now data st :
  (length (timelineDataRef st) <= MAX_TIMELINE_POINTS)%nat ->
  timelineDataRef (handleEmotionUpdate now data st)
  = slice_last MAX_TIMELINE_POINTS (timelineDataRef st ++ [stamp (now, data)])
  /\ timeline_ok (handleEmotionUpdate now data st).
Proof.
  intros Hlen. unfold handleEmotionUpdate, timeline_ok; simpl.
  rewrite (push_bounded _ _ Hlen). unfold stamp; simpl.
  repeat split. rewrite slice_last_length. lia.
Qed.

Lemma deliver_timeline updates : forall st,
  timeline_ok st ->
  emotionTimeline (deliver updates st)
  = slice_last MAX_TIMELINE_POINTS (timelineDataRef st ++ map stamp updates)
  /\ timeline_ok (deliver updates st).
Proof.
  induction updates as [|[now data] updates IH]; intros st [Heq Hlen].
  - simpl. rewrite app_nil_r, slice_last_all by exact Hlen.
    split; [exact Heq | split; assumption].
  - simpl.
    destruct (handleEmotionUpdate_timeline now data st Hlen) as [Href Hok].
    destruct (IH _ Hok) as [Htl Hok']. split; [|exact Hok'].
    rewrite Htl, Href, slice_last_slice_last_app, <- app_assoc.
    reflexivity.
Qed.

Lemma initialView_ok : timeline_ok initialView.
Proof. split; [reflexivity | simpl; lia]. Qed.

(** C3, as stated, fails: after 21 delivered events the timeline holds 20
    entries, and the first event is no longer among them. *)
Lemma timeline_drops_oldest :
  length twenty_one_updates = 21%nat
  /\ length (emotionTimeline (deliver twenty_one_updates initialView)) = 20%nat
  /\ emotionTimeline (deliver twenty_one_updates initialView)
     <> map stamp twenty_one_updates
  /\ ~ In (stamp (update_at 1))
          (emotionTimeline (deliver twenty_one_updates initialView)).
Proof.
  split; [reflexivity|]. split; [reflexivity|]. split.
  - intros Heq. apply (f_equal (@length _)) in Heq. vm_compute in Heq.
    discriminate Heq.
  - vm_compute. intros H.
    repeat (destruct H as [H|H]; [discriminate H|]). exact H.
Qed.

Lemma deliver_initial_timeline (updates : list (Z * EmotionData)) :
  emotionTimeline (deliver updates initialView)
  = slice_last MAX_TIMELINE_POINTS (map stamp updates)
  /\ timelineDataRef (deliver updates initialView)
     = emotionTimeline (deliver updates initialView).
Proof.
  destruct (deliver_timeline updates initialView initialView_ok) as [Htl [Href _]].
  simpl in Htl. split; [exact Htl | symmetry; exact Href].
Qed.

(** C3, amended: the timeline appends every delivered event at the end and
    keeps only the most recent [MAX_TIMELINE_POINTS] = 20 of them: after n
    events it is the last min(n, 20) events, in delivery order, each with its
    timestamp replaced by the local time of its delivery; the ref and the
    state agree. *)
Theorem timeline_keeps_last_20 (updates : list (Z * EmotionData)) :
  emotionTimeline (deliver updates initialView)
  = slice_last MAX_TIMELINE_POINTS (map stamp updates)
  /\ timelineDataRef (deliver updates initialView)
     = emotionTimeline (deliver updates initialView)
  /\ length (emotionTimeline (deliver updates initialView))
     = Nat.min (length updates) 20.
Proof.
  destruct (deliver_initial_timeline updates) as [Htl Href].
  split; [exact Htl|]. split; [exact Href|].
  rewrite Htl, slice_last_length, length_map. reflexivity.
Qed.

(** * Properties of the engagement score *)

Lemma slice_last_map {A B} (f : A -> B) n (l : list A) :
  slice_last n (map f l) = map f (slice_last n l).
Proof. unfold slice_last. rewrite length_map, skipn_map. reflexivity. Qed.

(** The two [includes] tests on the name of a label are the classification
    of section 4.4. *)
Lemma includes_label (l : Design.EmotionLabel) :
  includes positiveEmotions (Design.label_name l)
  = bool_decide (Design.classify l = Design.POSITIVE)
  /\ includes negativeEmotions (Design.label_name l)
  = bool_decide (Design.classify l = Design.NEGATIVE).
Proof. destruct l; split; reflexivity. Qed.

Lemma count_step_label (p n : Z) (e : EmotionData) (l : Design.EmotionLabel) :
  emotion e = Design.label_name l ->
  count_step (p, n) e
  = match Design.classify l with
    | Design.POSITIVE => ((p + 1)%Z, n)
    | Design.NEGATIVE => (p, (n + 1)%Z)
    | Design.NEUTRAL => (p, n)
    end.
Proof.
  intros He. unfold count_step. rewrite He.
  destruct (includes_label l) as [-> ->].
  destruct l; reflexivity.
Qed.

(** The counters of the [forEach] loop, started anywhere, on events whose
    emotions are the names of [labels]. *)
Lemma count_emotions_labels (es : list EmotionData) :
  forall (labels : list Design.EmotionLabel) (p n : Z),
  map emotion es = map Design.label_name labels ->
  fold_left count_step es (p, n)
  = ((p + Z.of_nat (Design.count_class Design.POSITIVE labels))%Z,
     (n + Z.of_nat (Design.count_class Design.NEGATIVE labels))%Z).
Proof.
  induction es as [|e es IH]; intros [|l labels] p n Hmap;
    try discriminate Hmap.
  - unfold Design.count_class. rewrite !filter_nil. simpl. f_equal; lia.
  - simpl in Hmap. injection Hmap as He Hes.
    change (fold_left count_step (e :: es) (p, n))
      with (fold_left count_step es (count_step (p, n) e)).
    rewrite (count_step_label _ _ _ _ He).
    unfold Design.count_class. rewrite !filter_cons.
    destruct l; simpl; rewrite (IH _ _ _ Hes);
      unfold Design.count_class; f_equal; lia.
Qed.

Lemma length_or_1_max {A} (l : list A) :
  length_or_1 l = Z.max 1 (Z.of_nat (length l)).
Proof.
  unfold length_or_1.
  destruct (Z.eqb_spec (Z.of_nat (length l)) 0); lia.
Qed.

Lemma max_min_clamp (x : Q) : Qmax 0 (Qmin 100 x) == Design.clamp x 0 100.
Proof.
  unfold Design.clamp.
  destruct (Q.min_spec 100 x) as [[Hlt Hmin]|[Hle Hmin]];
  destruct (Q.max_spec 0 (Qmin 100 x)) as [[Hlt' Hmax]|[Hle' Hmax]];
  rewrite Hmax; rewrite Hmin in *;
  destruct (Qlt_le_dec x 0); try destruct (Qlt_le_dec 100 x); lra.
Qed.

Lemma clamp_compat (x y : Q) :
  x == y -> Design.clamp x 0 100 == Design.clamp y 0 100.
Proof.
  intros Hxy. unfold Design.clamp.
  destruct (Qlt_le_dec x 0); destruct (Qlt_le_dec y 0);
  try destruct (Qlt_le_dec 100 x); try destruct (Qlt_le_dec 100 y); lra.
Qed.

Lemma score_of_counts_clamp (p n t : Z) :
  score_of_counts p n t
  == Design.clamp (50 + ((inject_Z p - inject_Z n) / inject_Z t) * 50) 0 100.
Proof.
  unfold score_of_counts. rewrite max_min_clamp.
  apply clamp_compat.
  unfold Z.sub. rewrite inject_Z_plus, inject_Z_opp. reflexivity.
Qed.

(** The score of a timeline whose emotions are the names of [labels]. *)
Lemma engagementScore_labels (tl : list EmotionData)
    (labels : list Design.EmotionLabel) :
  map emotion tl = map Design.label_name labels ->
  engagementScore tl == Design.score_labels labels.
Proof.
  intros Hmap. unfold engagementScore, count_emotions.
  assert (Hrecent : map emotion (slice_last 10 tl)
                    = map Design.label_name (Design.window labels)).
  { rewrite window_slice_last, <- !slice_last_map, Hmap. reflexivity. }
  rewrite (count_emotions_labels _ _ _ _ Hrecent).
  rewrite length_or_1_max, score_of_counts_clamp.
  replace (length (slice_last 10 tl)) with (length (Design.window labels)).
  2:{ rewrite <- (length_map Design.label_name), <- Hrecent, length_map.
      reflexivity. }
  reflexivity.
Qed.

Lemma score_of_counts_bounds (p n t : Z) :
  0 <= score_of_counts p n t /\ score_of_counts p n t <= 100.
Proof.
  unfold score_of_counts. split.
  - apply Q.le_max_l.
  - apply Q.max_lub; [discriminate|]. apply Q.le_min_l.
Qed.

Lemma score_of_counts_zero (t : Z) : score_of_counts 0 0 t == 50.
Proof.
  rewrite score_of_counts_clamp.
  rewrite (clamp_compat _ 50).
  - reflexivity.
  - unfold Qdiv. ring.
Qed.

(** An event that is neither positive nor negative leaves the counters. *)
Lemma count_emotions_neutral (w : list EmotionData) : forall (p n : Z),
  Forall (fun e => emotion e = "neutral"%string) w ->
  fold_left count_step w (p, n) = (p, n).
Proof.
  induction w as [|e w IH]; intros p n Hall; [reflexivity|].
  inversion Hall as [|? ? He Hw]; subst.
  change (fold_left count_step (e :: w) (p, n))
    with (fold_left count_step w (count_step (p, n) e)).
  unfold count_step. rewrite He. simpl. apply IH, Hw.
Qed.

(** C4: the scorer is total and bounded.  The divisor [length || 1] is at
    least 1, so no division by zero occurs; the score of every timeline lies
    in [0,100], whatever the counters are, because the clamp is always
    applied; an empty window and an all-neutral window score 50. *)
Theorem engagement_score_bounded (tl : list EmotionData) :
  (1 <= length_or_1 (slice_last 10 tl))%Z
  /\ (0 <= engagementScore tl /\ engagementScore tl <= 100)
  /\ (forall p n t : Z,
        0 <= score_of_counts p n t /\ score_of_counts p n t <= 100)
  /\ (slice_last 10 tl = [] -> engagementScore tl == 50)
  /\ (Forall (fun e => emotion e = "neutral"%string) (slice_last 10 tl) ->
      engagementScore tl == 50).
Proof.
  split; [rewrite length_or_1_max; lia|].
  split.
  { unfold engagementScore.
    destruct (count_emotions (slice_last 10 tl)) as [p n].
    apply score_of_counts_bounds. }
  split; [exact score_of_counts_bounds|].
  assert (Hneutral : Forall (fun e => emotion e = "neutral"%string)
                            (slice_last 10 tl) -> engagementScore tl == 50).
  { intros Hall. unfold engagementScore, count_emotions.
    rewrite (count_emotions_neutral _ _ _ Hall).
    apply score_of_counts_zero. }
  split; [|exact Hneutral].
  intros Hnil. apply Hneutral. rewrite Hnil. constructor.
Qed.

Lemma engagement_score_bounded_witness :
  (slice_last 10 (@nil EmotionData) = []
   /\ engagementScore [] == 50)
  /\ (Forall (fun e => emotion e = "neutral"%string)
        (slice_last 10 [neutral_event; neutral_event])
      /\ engagementScore [neutral_event; neutral_event] == 50).
Proof.
  split.
  - split; [reflexivity|].
    destruct (engagement_score_bounded []) as (_ & _ & _ & Hempty & _).
    apply Hempty. reflexivity.
  - assert (Hall : Forall (fun e => emotion e = "neutral"%string)
                     (slice_last 10 [neutral_event; neutral_event])).
    { repeat constructor. }
    split; [exact Hall|].
    destruct (engagement_score_bounded [neutral_event; neutral_event])
      as (_ & _ & _ & _ & Hneutral).
    apply Hneutral. exact Hall.
Defined.

(** * Properties of the participant map *)

Lemma deliver_app (us vs : list (Z * EmotionData)) (st : ViewState) :
  deliver (us ++ vs) st = deliver vs (deliver us st).
Proof. unfold deliver. apply fold_left_app. Qed.

Lemma handleEmotionUpdate_dom now data st :
  dom (participantEmotions (handleEmotionUpdate now data st))
  = {[participantId data]} ∪ dom (participantEmotions st).
Proof. unfold handleEmotionUpdate; simpl. apply dom_insert_L. Qed.

Lemma deliver_dom (updates : list (Z * EmotionData)) : forall st,
  dom (participantEmotions (deliver updates st))
  = list_to_set (ids_of updates) ∪ dom (participantEmotions st).
Proof.
  induction updates as [|[now data] updates IH]; intros st.
  - change (ids_of []) with (@nil string).
    change (deliver [] st) with st.
    rewrite list_to_set_nil, (left_id_L ∅ (∪)). reflexivity.
  - change (deliver ((now, data) :: updates) st)
      with (deliver updates (handleEmotionUpdate now data st)).
    rewrite IH, handleEmotionUpdate_dom.
    change (ids_of ((now, data) :: updates))
      with (participantId data :: ids_of updates).
    rewrite list_to_set_cons, (assoc_L (∪)).
    rewrite (comm_L (∪) (list_to_set (ids_of updates)) {[participantId data]}).
    reflexivity.
Qed.

(** C2, as stated, fails: P's event with timestamp 10 is followed by a late
    event of P with timestamp 5, and the tracker's entry for P reflects the
    late event (sad), not the one at t=10 (happy). *)
Lemma late_event_overwrites :
  emotion <$> (participantEmotions (deliver late_pair initialView) !! "P"%string)
  = Some "sad"%string
  /\ emotion <$> (participantEmotions (deliver late_pair initialView) !! "P"%string)
     <> Some "happy"%string.
Proof.
  assert (Hsad : emotion <$> (participantEmotions (deliver late_pair initialView)
                              !! "P"%string) = Some "sad"%string).
  { vm_compute. reflexivity. }
  split; [exact Hsad|]. rewrite Hsad. discriminate.
Qed.

(** C2, amended: the tracker overwrites the participant's entry on every
    incoming event, unconditionally: the entry becomes the event with its
    timestamp set to the clock reading at delivery, the entries of the other
    participants are untouched, and after any sequence of deliveries the
    entry of a participant is the event delivered last for it (an event with
    an older timestamp delivered later wins). *)
Theorem tracker_last_delivery_wins (now : Z) (data : EmotionData)
    (st : ViewState) :
  participantEmotions (handleEmotionUpdate now data st) !! participantId data
  = Some (with_timestamp data (TsDate now))
  /\ (forall k : string, k <> participantId data ->
        participantEmotions (handleEmotionUpdate now data st) !! k
        = participantEmotions st !! k)
  /\ (forall earlier : list (Z * EmotionData),
        participantEmotions (deliver (earlier ++ [(now, data)]) st)
          !! participantId data
        = Some (with_timestamp data (TsDate now))).
Proof.
  split; [apply lookup_insert_eq|]. split.
  - intros k Hk. unfold handleEmotionUpdate; simpl.
    apply lookup_insert_ne. congruence.
  - intros earlier. rewrite deliver_app. simpl. apply lookup_insert_eq.
Qed.

Lemma tracker_last_delivery_wins_witness :
  "P2"%string <> participantId neutral_event
  /\ participantEmotions (handleEmotionUpdate 7 neutral_event initialView)
       !! "P2"%string
     = participantEmotions initialView !! "P2"%string.
Proof.
  assert (Hne : "P2"%string <> participantId neutral_event) by discriminate.
  split; [exact Hne|].
  destruct (tracker_last_delivery_wins 7 neutral_event initialView)
    as (_ & Hother & _).
  apply Hother. exact Hne.
Defined.

Lemma size_list_to_set_remove_dups (l : list string) :
  size (list_to_set (C := gset string) l) = length (remove_dups l).
Proof.
  rewrite <- (size_list_to_set (C := gset string) (remove_dups l))
    by apply NoDup_remove_dups.
  f_equal. apply set_eq. intros x.
  rewrite !elem_of_list_to_set, elem_of_remove_dups. reflexivity.
Qed.

Lemma keys_length_dom (m : gmap string EmotionData) :
  keys_length m = size (dom m).
Proof. unfold keys_length. symmetry. apply size_dom. Qed.

(** The participant map only gains or replaces entries: every key present
    before a sequence of updates is present after it, the count of keys never
    decreases, and started from the empty map the keys are the participant
    ids delivered. *)
Lemma participant_map_grows (updates : list (Z * EmotionData))
    (st : ViewState) :
  dom (participantEmotions st) ⊆ dom (participantEmotions (deliver updates st))
  /\ (keys_length (participantEmotions st)
      <= keys_length (participantEmotions (deliver updates st)))%nat
  /\ dom (participantEmotions (deliver updates initialView))
     = list_to_set (ids_of updates)
  /\ keys_length (participantEmotions (deliver updates initialView))
     = length (remove_dups (ids_of updates)).
Proof.
  assert (Hsub : dom (participantEmotions st)
                 ⊆ dom (participantEmotions (deliver updates st))).
  { rewrite deliver_dom. apply union_subseteq_r. }
  assert (Hdom : dom (participantEmotions (deliver updates initialView))
                 = list_to_set (ids_of updates)).
  { rewrite deliver_dom. simpl. rewrite dom_empty_L, (right_id_L ∅ (∪)).
    reflexivity. }
  split; [exact Hsub|].
  split; [rewrite !keys_length_dom; apply subseteq_size, Hsub|].
  split; [exact Hdom|].
  rewrite keys_length_dom, Hdom. apply size_list_to_set_remove_dups.
Qed.

(** The page replaces its alert only when the response carries one: a
    response without an alert leaves the alert shown before. *)
Lemma fetchSessionStats_keeps_alert (n : Z) (pct : gmap string Q)
    (st : ViewState) (stats : option SessionStats) (alert : option Alert) :
  snd (fetchSessionStats (mkResponse true n pct None) st stats alert) = alert.
Proof. reflexivity. Qed.

(** * Properties of the engagement display *)

Lemma truthy_zero (x : Q) : x == 0 -> truthy (Some x) = false.
Proof.
  intros Hx. unfold truthy.
  apply (proj2 (Qeq_bool_iff x 0)) in Hx. rewrite Hx. reflexivity.
Qed.

Lemma truthy_nonzero (x : Q) : ~ x == 0 -> truthy (Some x) = true.
Proof.
  intros Hx. unfold truthy.
  destruct (Qeq_bool x 0) eqn:E; [|reflexivity].
  apply Qeq_bool_iff in E. contradiction.
Qed.

(** [toFixed(0)] on a score in (0,100]: the digits of the integer
    [floor (s + 1/2)]. *)
Lemma toFixed0_score (frac : Q -> string) (s : Q) :
  0 < s -> s <= 100 ->
  toFixed0 frac s = digits (Qfloor (Qabs s + (1 # 2))).
Proof.
  intros Hpos Hle. unfold toFixed0.
  assert (Habs : Qabs s == s) by (apply Qabs_pos; lra).
  destruct (Qle_bool (inject_Z (10 ^ 21)) (Qabs s)) eqn:Ebig.
  { apply Qle_bool_iff in Ebig. rewrite Habs in Ebig.
    assert (Hbig : 100 < inject_Z (10 ^ 21)) by reflexivity. lra. }
  assert (H0 : 0 <= s) by lra.
  apply Qle_bool_iff in H0. rewrite H0. reflexivity.
Qed.

Lemma round_half_up_near (s : Q) :
  0 < s -> s <= 100 ->
  Qabs (s - inject_Z (Qfloor (Qabs s + (1 # 2)))) <= 1 # 2
  /\ (0 <= Qfloor (Qabs s + (1 # 2)) <= 100)%Z.
Proof.
  intros Hpos Hle.
  assert (Habs : Qabs s == s) by (apply Qabs_pos; lra).
  pose proof (Qfloor_le (Qabs s + (1 # 2))) as Hlo.
  pose proof (Qlt_floor (Qabs s + (1 # 2))) as Hhi.
  set (n := Qfloor (Qabs s + (1 # 2))) in *.
  rewrite inject_Z_plus in Hhi. rewrite Habs in Hlo, Hhi.
  change (inject_Z 1) with 1 in Hhi.
  split.
  - apply Qabs_Qle_condition. split; lra.
  - split.
    + apply Z.lt_succ_r. rewrite Zlt_Qlt. rewrite <- Z.add_1_r.
      rewrite inject_Z_plus. change (inject_Z 1) with 1.
      change (inject_Z 0) with 0. lra.
    + apply Z.lt_succ_r. rewrite Zlt_Qlt.
      change (inject_Z (Z.succ 100)) with 101. lra.
Qed.

(** C10: the display tests the score for truthiness, so a score of exactly 0
    renders as an absent score does: the text 0% over a bar of width 0%.
    For every score s with 0 < s <= 100 the text is an integer n followed by
    the percent sign, where n is s rounded to an integer (n is within 1/2 of
    s, and between 0 and 100). *)
Theorem zero_score_renders_as_absent (frac : Q -> string) :
  (forall x : Q, x == 0 ->
     renderEngagement frac (Some x) = renderEngagement frac None)
  /\ renderEngagement frac None
     = {| score_text := "0%"; bar_width := "0%" |}
  /\ (forall s : Q, 0 < s -> s <= 100 ->
      exists n : Z,
        score_text (renderEngagement frac (Some s)) = (digits n ++ "%")%string
        /\ Qabs (s - inject_Z n) <= 1 # 2
        /\ (0 <= n <= 100)%Z).
Proof.
  split; [|split].
  - intros x Hx. unfold renderEngagement.
    rewrite (truthy_zero x Hx). reflexivity.
  - reflexivity.
  - intros s Hpos Hle. exists (Qfloor (Qabs s + (1 # 2))).
    destruct (round_half_up_near s Hpos Hle) as [Hnear Hrange].
    split; [|split; assumption].
    unfold renderEngagement; cbn [score_text].
    rewrite truthy_nonzero by lra.
    rewrite (toFixed0_score frac s Hpos Hle). reflexivity.
Qed.

Lemma zero_score_renders_as_absent_witness :
  (0 # 5 == 0
   /\ renderEngagement (fun _ => ""%string) (Some (0 # 5))
      = renderEngagement (fun _ => ""%string) None)
  /\ (0 < 200 # 3 /\ 200 # 3 <= 100
      /\ exists n : Z,
           score_text (renderEngagement (fun _ => ""%string) (Some (200 # 3)))
           = (digits n ++ "%")%string
           /\ Qabs ((200 # 3) - inject_Z n) <= 1 # 2
           /\ (0 <= n <= 100)%Z).
Proof.
  destruct (zero_score_renders_as_absent (fun _ => ""%string))
    as (Hzero & _ & Hround).
  split.
  - split; [reflexivity|]. apply Hzero. reflexivity.
  - split; [reflexivity|]. split; [discriminate|].
    apply Hround; [reflexivity | discriminate].
Defined.

(** * Properties of the session aggregate of the design *)

Section DesignProperties.

Import Design.

Variable alert_message : AlertLevel -> Q -> string.

Lemma evaluate_high (p : EmotionLabel -> Q) :
  60 <= disengagedPct p ->
  evaluate alert_message p
  = Some {| level := high;
            message := alert_message high (disengagedPct p);
            percentage := disengagedPct p |}.
Proof.
  intros Hd. unfold evaluate.
  apply Qle_bool_iff in Hd. rewrite Hd. reflexivity.
Qed.

Lemma Qle_bool_false (x y : Q) : y < x -> Qle_bool x y = false.
Proof.
  intros Hlt. destruct (Qle_bool x y) eqn:E; [|reflexivity].
  apply Qle_bool_iff in E. lra.
Qed.

Lemma evaluate_low (p : EmotionLabel -> Q) :
  35 <= disengagedPct p -> disengagedPct p < 60 ->
  evaluate alert_message p
  = Some {| level := low;
            message := alert_message low (disengagedPct p);
            percentage := disengagedPct p |}.
Proof.
  intros Hlo Hhi. unfold evaluate.
  rewrite (Qle_bool_false _ _ Hhi).
  apply Qle_bool_iff in Hlo. rewrite Hlo. reflexivity.
Qed.

Lemma evaluate_none (p : EmotionLabel -> Q) :
  disengagedPct p < 35 -> evaluate alert_message p = None.
Proof.
  intros Hd. unfold evaluate.
  rewrite (Qle_bool_false 60) by lra.
  rewrite (Qle_bool_false 35) by lra. reflexivity.
Qed.

(** C5: with disengagedPct the sum of the shares of sad, angry, fear and
    disgust, the evaluator answers a high alert from 60 on, a low alert from
    35 up to (not including) 60, and no alert below 35; the alert state after
    an accepted event is this evaluation of the new percentages alone, so an
    earlier alert does not stick.  In particular 34 gives no alert, 35 low,
    60 high and 100 high. *)
Theorem alert_thresholds (p : EmotionLabel -> Q) :
  (60 <= disengagedPct p ->
   evaluate alert_message p
   = Some {| level := high;
             message := alert_message high (disengagedPct p);
             percentage := disengagedPct p |})
  /\ (35 <= disengagedPct p -> disengagedPct p < 60 ->
      evaluate alert_message p
      = Some {| level := low;
                message := alert_message low (disengagedPct p);
                percentage := disengagedPct p |})
  /\ (disengagedPct p < 35 -> evaluate alert_message p = None)
  /\ (forall (event : EmotionEvent) (a : SessionAggregate),
        alertState (accept alert_message event a)
        = evaluate alert_message
            (summaryPercentages (emotionCounts (accept alert_message event a))))
  /\ evaluate alert_message (only_sad 34) = None
  /\ level <$> evaluate alert_message (only_sad 35) = Some low
  /\ level <$> evaluate alert_message (only_sad 60) = Some high
  /\ level <$> evaluate alert_message (only_sad 100) = Some high.
Proof.
  split; [apply evaluate_high|].
  split; [apply evaluate_low|].
  split; [apply evaluate_none|].
  split; [reflexivity|].
  repeat split; reflexivity.
Qed.

Lemma total_as_Q (counts : EmotionLabel -> nat) :
  inject_Z (Z.of_nat (totalAcceptedEvents counts))
  == inject_Z (Z.of_nat (counts happy)) + inject_Z (Z.of_nat (counts sad))
     + inject_Z (Z.of_nat (counts angry)) + inject_Z (Z.of_nat (counts surprise))
     + inject_Z (Z.of_nat (counts fear)) + inject_Z (Z.of_nat (counts disgust))
     + inject_Z (Z.of_nat (counts neutral)).
Proof.
  unfold totalAcceptedEvents; simpl.
  rewrite !Nat2Z.inj_add, !inject_Z_plus. simpl. ring.
Qed.

Lemma total_increment (counts : EmotionLabel -> nat) (l : EmotionLabel) :
  totalAcceptedEvents (increment counts l) = S (totalAcceptedEvents counts).
Proof. destruct l; unfold totalAcceptedEvents, increment; simpl; lia. Qed.

Lemma ingest_total (raw : RawEvent) (a : SessionAggregate) :
  totalAcceptedEvents (emotionCounts a) = length (timeline a) ->
  totalAcceptedEvents (emotionCounts (fst (ingest alert_message raw a)))
  = length (timeline (fst (ingest alert_message raw a))).
Proof.
  intros Hinv. unfold ingest.
  destruct (state a); [|exact Hinv].
  destruct (normalize raw) as [event|e]; [|exact Hinv].
  simpl. unfold append. rewrite total_increment, length_app, Hinv.
  simpl. lia.
Qed.

(** The total the percentages divide by is the number of accepted events:
    on every aggregate reached from [start] it is the length of the
    timeline. *)
Lemma total_is_timeline_length (raws : list RawEvent) (sid : string) (now : Z) :
  totalAcceptedEvents
    (emotionCounts (ingest_all alert_message raws (start sid now)))
  = length (timeline (ingest_all alert_message raws (start sid now))).
Proof.
  unfold ingest_all.
  assert (Hstart : totalAcceptedEvents (emotionCounts (start sid now))
                   = length (timeline (start sid now))) by reflexivity.
  revert Hstart. generalize (start sid now).
  induction raws as [|r raws IH]; intros a Hinv; [exact Hinv|].
  simpl. apply IH, ingest_total, Hinv.
Qed.

(** The tracker of the design drops a late event of a known participant. *)
Lemma update_drops_late (participants : gmap string ParticipantState)
    (event : EmotionEvent) (existing : ParticipantState) :
  participants !! ev_participantId event = Some existing ->
  (ev_timestamp event < lastUpdated existing)%Z ->
  update participants event = participants.
Proof.
  intros Hknown Hlate. unfold update. rewrite Hknown.
  destruct (Z.leb_spec (lastUpdated existing) (ev_timestamp event)); [lia|].
  reflexivity.
Qed.

(** C6: with no accepted event every percentage is 0; otherwise the
    percentage of a label is its count over the total times 100, and the
    percentages of the seven labels sum to 100 (exactly, in rational
    arithmetic). *)
Theorem summary_percentages (counts : EmotionLabel -> nat) :
  (totalAcceptedEvents counts = 0%nat ->
   forall l : EmotionLabel, summaryPercentages counts l = 0)
  /\ (totalAcceptedEvents counts <> 0%nat ->
      forall l : EmotionLabel,
        summaryPercentages counts l
        = inject_Z (Z.of_nat (counts l))
          / inject_Z (Z.of_nat (totalAcceptedEvents counts)) * 100)
  /\ (totalAcceptedEvents counts <> 0%nat ->
      sum_percentages (summaryPercentages counts) == 100).
Proof.
  split; [|split].
  - intros Hzero l. unfold summaryPercentages. rewrite Hzero. reflexivity.
  - intros Hpos l. unfold summaryPercentages.
    destruct (Nat.eqb_spec (totalAcceptedEvents counts) 0); [contradiction|].
    reflexivity.
  - intros Hpos. unfold sum_percentages, summaryPercentages; simpl.
    destruct (Nat.eqb_spec (totalAcceptedEvents counts) 0); [contradiction|].
    assert (HT : ~ inject_Z (Z.of_nat (totalAcceptedEvents counts)) == 0).
    { change 0 with (inject_Z 0). rewrite inject_Z_injective. lia. }
    pose proof (total_as_Q counts) as Hsum.
    set (T := inject_Z (Z.of_nat (totalAcceptedEvents counts))) in *.
    set (c1 := inject_Z (Z.of_nat (counts happy))) in *.
    set (c2 := inject_Z (Z.of_nat (counts sad))) in *.
    set (c3 := inject_Z (Z.of_nat (counts angry))) in *.
    set (c4 := inject_Z (Z.of_nat (counts surprise))) in *.
    set (c5 := inject_Z (Z.of_nat (counts fear))) in *.
    set (c6 := inject_Z (Z.of_nat (counts disgust))) in *.
    set (c7 := inject_Z (Z.of_nat (counts neutral))) in *.
    transitivity ((c1 + c2 + c3 + c4 + c5 + c6 + c7) / T * 100).
    + field. exact HT.
    + rewrite <- Hsum. field. exact HT.
Qed.

Lemma summary_percentages_witness :
  (totalAcceptedEvents (fun _ => 0%nat) = 0%nat
   /\ summaryPercentages (fun _ => 0%nat) happy = 0)
  /\ (totalAcceptedEvents counts_2_1 <> 0%nat
      /\ summaryPercentages counts_2_1 happy
         = inject_Z (Z.of_nat (counts_2_1 happy))
           / inject_Z (Z.of_nat (totalAcceptedEvents counts_2_1)) * 100
      /\ sum_percentages (summaryPercentages counts_2_1) == 100).
Proof.
  split.
  - split; [reflexivity|].
    destruct (summary_percentages (fun _ => 0%nat)) as (Hzero & _).
    apply Hzero. reflexivity.
  - assert (Hpos : totalAcceptedEvents counts_2_1 <> 0%nat) by discriminate.
    destruct (summary_percentages counts_2_1) as (_ & Hpct & Hsum).
    split; [exact Hpos|]. split; [apply Hpct, Hpos | apply Hsum, Hpos].
Defined.

(** C7: stopping sets [endTime] and makes the aggregate Stopped; every
    further ingest is rejected with a state error and returns the aggregate
    as it was, so [emotionCounts], [timeline] and [engagementScore] (and
    every other field) are unchanged, after one or after any number of
    further ingests. *)
Theorem stopped_ingest_is_noop (a : SessionAggregate) (now : Z)
    (raw : RawEvent) :
  state (stop now a) = Stopped
  /\ endTime (stop now a) = Some now
  /\ ingest alert_message raw (stop now a) = (stop now a, Some StateError)
  /\ emotionCounts (fst (ingest alert_message raw (stop now a)))
     = emotionCounts a
  /\ timeline (fst (ingest alert_message raw (stop now a))) = timeline a
  /\ engagementScore (fst (ingest alert_message raw (stop now a)))
     = engagementScore a
  /\ (forall raws : list RawEvent,
        ingest_all alert_message raws (stop now a) = stop now a).
Proof.
  repeat split.
  intros raws. induction raws as [|r raws IH]; [reflexivity|].
  unfold ingest_all in *. simpl. exact IH.
Qed.

(** Case analysis on whether [s] is the name [name]; the case where it is
    closes a goal of the shape [Some _ = None <-> ~ In name _]. *)
Ltac case_name s name :=
  destruct (String.eqb_spec s name) as [->|?];
  [ split;
    [ discriminate
    | intros Hnot; exfalso; apply Hnot;
      repeat first [left; reflexivity | right] ]
  | ].

Lemma parse_label_None (s : string) :
  parse_label s = None <-> ~ In s label_names.
Proof.
  unfold parse_label, label_names, all_labels; simpl.
  case_name s "happy"%string. case_name s "sad"%string.
  case_name s "angry"%string. case_name s "surprise"%string.
  case_name s "fear"%string. case_name s "disgust"%string.
  case_name s "neutral"%string.
  split; [|reflexivity]. intros _ H.
  repeat (destruct H as [H|H]; [congruence|]). exact H.
Qed.

Lemma parse_label_name (l : EmotionLabel) : parse_label (label_name l) = Some l.
Proof. destruct l; reflexivity. Qed.

Lemma is_empty_true (s : string) : is_empty s = true <-> s = ""%string.
Proof. unfold is_empty. apply String.eqb_eq. Qed.

(** What the validator rejects, as a proposition on the raw event. *)
Lemma confidence_in_range (c : Q) :
  Qle_bool 0 c && Qle_bool c 100 = true <-> 0 <= c /\ c <= 100.
Proof. rewrite andb_true_iff, !Qle_bool_iff. reflexivity. Qed.

Lemma normalize_cases (raw : RawEvent) :
  (invalid raw /\ exists e, normalize raw = Err e)
  \/ (~ invalid raw
      /\ exists (l : EmotionLabel) (c : Q),
           parse_label (raw_emotion raw) = Some l
           /\ raw_confidence raw = Numeric c
           /\ normalize raw
              = Ok {| ev_sessionId := raw_sessionId raw;
                      ev_participantId := raw_participantId raw;
                      ev_emotion := l;
                      ev_confidence := c;
                      ev_timestamp := raw_timestamp raw |}).
Proof.
  unfold normalize, invalid.
  destruct (parse_label (raw_emotion raw)) as [l|] eqn:Elabel.
  2:{ left. split; [|eexists; reflexivity].
      left. apply parse_label_None, Elabel. }
  assert (Hin : ~ ~ In (raw_emotion raw) label_names).
  { intros Hnot. apply parse_label_None in Hnot. congruence. }
  destruct (raw_confidence raw) as [c|other] eqn:Econf.
  2:{ left. split; [|eexists; reflexivity]. right; left. exact I. }
  destruct (Qle_bool 0 c && Qle_bool c 100) eqn:Erange; simpl.
  2:{ left. split; [|eexists; reflexivity]. right; left.
      rewrite <- confidence_in_range. congruence. }
  apply confidence_in_range in Erange.
  destruct (is_empty (raw_sessionId raw)) eqn:Esid.
  { left. split; [|eexists; reflexivity]. right; right; left.
    apply is_empty_true, Esid. }
  destruct (is_empty (raw_participantId raw)) eqn:Epid.
  { left. split; [|eexists; reflexivity]. right; right; right.
    apply is_empty_true, Epid. }
  right. split; [|exists l, c; repeat split].
  intros [Hbad|[Hbad|[Hbad|Hbad]]].
  - exact (Hin Hbad).
  - exact (Hbad Erange).
  - apply is_empty_true in Hbad. congruence.
  - apply is_empty_true in Hbad. congruence.
Qed.

(** C8: [normalize] answers a validation error exactly when the emotion is
    outside the closed label set, the confidence is not a number or lies
    outside [0,100], or the session id or the participant id is empty; an
    event it rejects leaves every aggregate as it was; every other event is
    returned normalized, its confidence unchanged (not clamped). *)
Theorem normalize_rejects_exactly (raw : RawEvent) :
  ((exists e : ValidationError, normalize raw = Err e) <-> invalid raw)
  /\ ((exists e : ValidationError, normalize raw = Err e) ->
      forall a : SessionAggregate, fst (ingest alert_message raw a) = a)
  /\ (~ invalid raw ->
      exists (l : EmotionLabel) (c : Q),
        label_name l = raw_emotion raw
        /\ raw_confidence raw = Numeric c
        /\ normalize raw
           = Ok {| ev_sessionId := raw_sessionId raw;
                   ev_participantId := raw_participantId raw;
                   ev_emotion := l;
                   ev_confidence := c;
                   ev_timestamp := raw_timestamp raw |}).
Proof.
  split; [|split].
  - destruct (normalize_cases raw) as [[Hinv Herr]|[Hok (l & c & _ & _ & Hn)]].
    + split; intros _; assumption.
    + split; [|contradiction]. intros [e He]. congruence.
  - intros [e He] a. unfold ingest.
    destruct (state a); [|reflexivity]. rewrite He. reflexivity.
  - intros Hvalid.
    destruct (normalize_cases raw) as [[Hinv _]|[_ (l & c & Hl & Hc & Hn)]];
      [contradiction|].
    exists l, c. split; [|split; assumption].
    unfold parse_label in Hl. apply find_some in Hl as [_ Heq].
    apply String.eqb_eq in Heq. symmetry. exact Heq.
Qed.

End DesignProperties.

Lemma alert_thresholds_witness :
  (60 <= Design.disengagedPct (only_sad 60)
   /\ Design.evaluate plain_message (only_sad 60)
      = Some {| level := high;
                message := plain_message high (Design.disengagedPct (only_sad 60));
                percentage := Design.disengagedPct (only_sad 60) |})
  /\ (35 <= Design.disengagedPct (only_sad 35)
      /\ Design.disengagedPct (only_sad 35) < 60
      /\ Design.evaluate plain_message (only_sad 35)
         = Some {| level := low;
                   message := plain_message low (Design.disengagedPct (only_sad 35));
                   percentage := Design.disengagedPct (only_sad 35) |})
  /\ (Design.disengagedPct (only_sad 34) < 35
      /\ Design.evaluate plain_message (only_sad 34) = None).
Proof.
  split; [|split].
  - split; [discriminate|].
    destruct (alert_thresholds plain_message (only_sad 60)) as (Hhigh & _).
    apply Hhigh. discriminate.
  - split; [discriminate|]. split; [reflexivity|].
    destruct (alert_thresholds plain_message (only_sad 35)) as (_ & Hlow & _).
    apply Hlow; [discriminate | reflexivity].
  - split; [reflexivity|].
    destruct (alert_thresholds plain_message (only_sad 34)) as (_ & _ & Hnone & _).
    apply Hnone. reflexivity.
Defined.

Lemma normalize_rejects_exactly_witness :
  (invalid raw_bored
   /\ exists e : Design.ValidationError, Design.normalize raw_bored = Design.Err e)
  /\ ((exists e : Design.ValidationError,
         Design.normalize raw_overconfident = Design.Err e)
      /\ fst (Design.ingest plain_message raw_overconfident (Design.start "S1" 0))
         = Design.start "S1" 0)
  /\ (~ invalid raw_happy
      /\ exists (l : Design.EmotionLabel) (c : Q),
           Design.label_name l = Design.raw_emotion raw_happy
           /\ Design.raw_confidence raw_happy = Design.Numeric c
           /\ Design.normalize raw_happy
              = Design.Ok
                  {| Design.ev_sessionId := Design.raw_sessionId raw_happy;
                     Design.ev_participantId := Design.raw_participantId raw_happy;
                     Design.ev_emotion := l;
                     Design.ev_confidence := c;
                     Design.ev_timestamp := Design.raw_timestamp raw_happy |}).
Proof.
  split; [|split].
  - assert (Hbad : invalid raw_bored).
    { left. simpl. intros H.
      repeat (destruct H as [H|H]; [discriminate H|]). exact H. }
    split; [exact Hbad|].
    destruct (normalize_rejects_exactly plain_message raw_bored) as (Hiff & _).
    apply Hiff. exact Hbad.
  - assert (Herr : exists e : Design.ValidationError,
               Design.normalize raw_overconfident = Design.Err e).
    { exists Design.InvalidConfidence. reflexivity. }
    split; [exact Herr|].
    destruct (normalize_rejects_exactly plain_message raw_overconfident)
      as (_ & Hnoop & _).
    apply Hnoop. exact Herr.
  - assert (Hgood : ~ invalid raw_happy).
    { intros [H|[H|[H|H]]]; simpl in H.
      - apply H. left. reflexivity.
      - apply H. split; discriminate.
      - discriminate H.
      - discriminate H. }
    split; [exact Hgood|].
    destruct (normalize_rejects_exactly plain_message raw_happy) as (_ & _ & Hok).
    apply Hok. exact Hgood.
Defined.

(** The end-to-end scenario of the design document: two happy and one sad
    event give the counts 2 and 1, the shares 200/3 and 100/3, the score
    200/3 and no alert. *)
Example scenario_snapshot :
  Design.emotionCounts scenario Design.happy = 2%nat
  /\ Design.emotionCounts scenario Design.sad = 1%nat
  /\ Design.summaryPercentages (Design.emotionCounts scenario) Design.happy
     == 200 # 3
  /\ Design.summaryPercentages (Design.emotionCounts scenario) Design.sad
     == 100 # 3
  /\ Design.engagementScore scenario == 200 # 3
  /\ Design.alertState scenario = None
  /\ length (Design.timeline scenario) = 3%nat.
Proof. repeat split. Qed.

(** The view after the same three updates: a [fetchSessionStats] made by a
    render of this view computes the score 200/3, which the statistics panel
    shows as 67%, and counts two participants. *)
Example page_three_updates (frac : Q -> string) :
  engagementScore (emotionTimeline (deliver three_updates initialView))
  == 200 # 3
  /\ score_text (renderEngagement frac (Some (200 # 3))) = "67%"%string
  /\ keys_length (participantEmotions (deliver three_updates initialView))
     = 2%nat.
Proof. repeat split. Qed.

(** * Further properties of the live page *)

Lemma slice_last_app_ge {A} n (older recent : list A) :
  (n <= length recent)%nat ->
  slice_last n (older ++ recent) = slice_last n recent.
Proof.
  intros Hn. unfold slice_last. rewrite length_app.
  replace (length older + length recent - n)%nat
    with (length older + (length recent - n))%nat by lia.
  rewrite drop_app_add'; reflexivity.
Qed.

Lemma slice_last_snoc {A} n (l : list A) (x : A) :
  slice_last (S n) (l ++ [x]) = slice_last n l ++ [x].
Proof.
  unfold slice_last. rewrite length_app. simpl.
  replace (length l + 1 - S n)%nat with (length l - n)%nat by lia.
  apply drop_app_le. lia.
Qed.

Lemma engagementScore_window (tl : list EmotionData) :
  engagementScore tl = engagementScore (slice_last 10 tl).
Proof.
  unfold engagementScore. rewrite slice_last_slice_last by lia. reflexivity.
Qed.

(** The score [fetchSessionStats] computes depends only on the last ten
    entries of the timeline it has in scope: entries before them do not
    change it, and neither does cutting the timeline to its last twenty
    entries, as the handler does. *)
Theorem score_ignores_old_events (older recent : list EmotionData) :
  (10 <= length recent)%nat ->
  engagementScore (older ++ recent) = engagementScore recent
  /\ forall tl : list EmotionData,
       engagementScore (slice_last MAX_TIMELINE_POINTS tl) = engagementScore tl.
Proof.
  intros Hten. split.
  - rewrite (engagementScore_window (older ++ recent)).
    rewrite (engagementScore_window recent).
    rewrite slice_last_app_ge by exact Hten. reflexivity.
  - intros tl.
    rewrite (engagementScore_window (slice_last MAX_TIMELINE_POINTS tl)).
    rewrite (engagementScore_window tl).
    rewrite slice_last_slice_last by (unfold MAX_TIMELINE_POINTS; lia).
    reflexivity.
Qed.

Lemma score_ignores_old_events_witness :
  (10 <= length (map stamp ten_happy))%nat
  /\ engagementScore ([stamp sad_update] ++ map stamp ten_happy)
     = engagementScore (map stamp ten_happy).
Proof.
  assert (Hten : (10 <= length (map stamp ten_happy))%nat) by (vm_compute; lia).
  split; [exact Hten|].
  apply (score_ignores_old_events [stamp sad_update] (map stamp ten_happy)).
  exact Hten.
Defined.

(** One event moves exactly one counter by one, or none. *)
Lemma count_step_cases (p n : Z) (e : EmotionData) :
  count_step (p, n) e = ((p + 1)%Z, n)
  \/ count_step (p, n) e = (p, (n + 1)%Z)
  \/ count_step (p, n) e = (p, n).
Proof.
  unfold count_step.
  destruct (includes positiveEmotions (emotion e)); [left; reflexivity|].
  destruct (includes negativeEmotions (emotion e)); [right; left|right; right];
    reflexivity.
Qed.

(** The counters of the loop never exceed the number of events seen. *)
Lemma count_emotions_range (w : list EmotionData) : forall (p0 n0 : Z),
  (p0 <= fst (fold_left count_step w (p0, n0))
   /\ n0 <= snd (fold_left count_step w (p0, n0))
   /\ fst (fold_left count_step w (p0, n0)) - p0
      + (snd (fold_left count_step w (p0, n0)) - n0)
      <= Z.of_nat (length w))%Z.
Proof.
  induction w as [|e w IH]; intros p0 n0.
  - simpl. lia.
  - change (fold_left count_step (e :: w) (p0, n0))
      with (fold_left count_step w (count_step (p0, n0) e)).
    destruct (count_step_cases p0 n0 e) as [Hs|[Hs|Hs]]; rewrite Hs;
      match goal with
      | |- context [fold_left count_step w (?a, ?b)] =>
        specialize (IH a b)
      end;
      simpl length; lia.
Qed.

Lemma raw_score_in_range (p n t : Z) :
  (1 <= t)%Z -> (- t <= p - n <= t)%Z ->
  0 <= 50 + (inject_Z (p - n) / inject_Z t) * 50
  /\ 50 + (inject_Z (p - n) / inject_Z t) * 50 <= 100.
Proof.
  intros Ht Hpn.
  assert (Htpos : 0 < inject_Z t).
  { change 0 with (inject_Z 0). rewrite <- Zlt_Qlt. lia. }
  assert (Hlo : -1 <= inject_Z (p - n) / inject_Z t).
  { apply Qle_shift_div_l; [exact Htpos|].
    assert (Hneg : -1 * inject_Z t == inject_Z (- t))
      by (rewrite inject_Z_opp; ring).
    rewrite Hneg, <- Zle_Qle. lia. }
  assert (Hhi : inject_Z (p - n) / inject_Z t <= 1).
  { apply Qle_shift_div_r; [exact Htpos|].
    rewrite Qmult_1_l. rewrite <- Zle_Qle. lia. }
  split; lra.
Qed.

Lemma engagementScore_raw (tl : list EmotionData) :
  engagementScore tl
  == 50 + (inject_Z (fst (count_emotions (slice_last 10 tl))
                     - snd (count_emotions (slice_last 10 tl)))
           / inject_Z (length_or_1 (slice_last 10 tl))) * 50.
Proof.
  unfold engagementScore.
  pose proof (count_emotions_range (slice_last 10 tl) 0 0) as Hrange.
  fold (count_emotions (slice_last 10 tl)) in Hrange.
  destruct (count_emotions (slice_last 10 tl)) as [p n]. simpl in *.
  pose proof (length_or_1_max (slice_last 10 tl)) as Ht.
  destruct (raw_score_in_range p n (length_or_1 (slice_last 10 tl)))
    as [Hlo Hhi]; [lia | lia |].
  unfold score_of_counts.
  rewrite Q.min_r by exact Hhi. rewrite Q.max_r by exact Hlo. reflexivity.
Qed.

(** The clamp never cuts: the difference of the counters is at most the
    window size, so the score is exactly
    50 + ((positiveCount - negativeCount) / total) * 50. *)
Theorem score_is_unclamped (tl : list EmotionData) :
  engagementScore tl
  == 50 + (inject_Z (fst (count_emotions (slice_last 10 tl))
                     - snd (count_emotions (slice_last 10 tl)))
           / inject_Z (length_or_1 (slice_last 10 tl))) * 50
  /\ (- Z.of_nat (length (slice_last 10 tl))
      <= fst (count_emotions (slice_last 10 tl))
         - snd (count_emotions (slice_last 10 tl))
      <= Z.of_nat (length (slice_last 10 tl)))%Z.
Proof.
  split; [apply engagementScore_raw|].
  pose proof (count_emotions_range (slice_last 10 tl) 0 0) as Hrange.
  fold (count_emotions (slice_last 10 tl)) in Hrange. lia.
Qed.

Lemma negative_not_positive (s : string) :
  includes negativeEmotions s = true -> includes positiveEmotions s = false.
Proof.
  intros Hneg. destruct (includes positiveEmotions s) eqn:Hpos; [|reflexivity].
  unfold includes in Hpos; simpl in Hpos.
  rewrite !orb_true_iff, !String.eqb_eq in Hpos.
  destruct Hpos as [->|[->|Hf]];
    [discriminate Hneg | discriminate Hneg | discriminate Hf].
Qed.

Lemma count_all_positive (w : list EmotionData) : forall (p n : Z),
  Forall is_positive w ->
  fold_left count_step w (p, n) = ((p + Z.of_nat (length w))%Z, n).
Proof.
  induction w as [|e w IH]; intros p n Hall.
  - simpl. f_equal. lia.
  - inversion Hall as [|? ? He Hw]; subst.
    change (fold_left count_step (e :: w) (p, n))
      with (fold_left count_step w (count_step (p, n) e)).
    unfold count_step. rewrite He. rewrite (IH _ _ Hw).
    simpl length. f_equal. lia.
Qed.

Lemma count_all_negative (w : list EmotionData) : forall (p n : Z),
  Forall is_negative w ->
  fold_left count_step w (p, n) = (p, (n + Z.of_nat (length w))%Z).
Proof.
  induction w as [|e w IH]; intros p n Hall.
  - simpl. f_equal. lia.
  - inversion Hall as [|? ? He Hw]; subst.
    change (fold_left count_step (e :: w) (p, n))
      with (fold_left count_step w (count_step (p, n) e)).
    unfold count_step. rewrite (negative_not_positive _ He), He.
    rewrite (IH _ _ Hw). simpl length. f_equal. lia.
Qed.

Lemma length_or_1_nonempty {A} (l : list A) :
  l <> [] -> length_or_1 l = Z.of_nat (length l) /\ (1 <= Z.of_nat (length l))%Z.
Proof.
  intros Hne. rewrite length_or_1_max.
  destruct l; [contradiction|]. simpl length. lia.
Qed.

(** A non-empty window of positive emotions only (happy, surprise) scores
    100, whatever its size; a non-empty window of negative emotions only
    (sad, angry, fear, disgust) scores 0. *)
Theorem score_saturates (tl : list EmotionData) :
  slice_last 10 tl <> [] ->
  (Forall is_positive (slice_last 10 tl) -> engagementScore tl == 100)
  /\ (Forall is_negative (slice_last 10 tl) -> engagementScore tl == 0).
Proof.
  intros Hne.
  destruct (length_or_1_nonempty _ Hne) as [Hlen Hpos].
  assert (Hnz : ~ inject_Z (Z.of_nat (length (slice_last 10 tl))) == 0).
  { change 0 with (inject_Z 0). rewrite inject_Z_injective. lia. }
  split; intros Hall; rewrite engagementScore_raw; unfold count_emotions.
  - rewrite (count_all_positive _ _ _ Hall), Hlen. simpl fst; simpl snd.
    rewrite Z.sub_0_r, Z.add_0_l. field. exact Hnz.
  - rewrite (count_all_negative _ _ _ Hall), Hlen. simpl fst; simpl snd.
    rewrite Z.sub_0_l, Z.add_0_l, inject_Z_opp. field. exact Hnz.
Qed.

Lemma score_saturates_witness :
  (slice_last 10 [surprise_event] <> []
   /\ Forall is_positive (slice_last 10 [surprise_event])
   /\ engagementScore [surprise_event] == 100)
  /\ (slice_last 10 [angry_event; angry_event] <> []
      /\ Forall is_negative (slice_last 10 [angry_event; angry_event])
      /\ engagementScore [angry_event; angry_event] == 0).
Proof.
  split.
  - assert (Hne : slice_last 10 [surprise_event] <> []) by discriminate.
    assert (Hall : Forall is_positive (slice_last 10 [surprise_event])).
    { repeat constructor. }
    split; [exact Hne|]. split; [exact Hall|].
    apply (score_saturates [surprise_event] Hne). exact Hall.
  - assert (Hne : slice_last 10 [angry_event; angry_event] <> [])
      by discriminate.
    assert (Hall : Forall is_negative (slice_last 10 [angry_event; angry_event])).
    { repeat constructor. }
    split; [exact Hne|]. split; [exact Hall|].
    apply (score_saturates [angry_event; angry_event] Hne). exact Hall.
Defined.

Lemma poll_snoc (answers : list (StatsResponse * ViewState))
    (ans : StatsResponse * ViewState) (s : option SessionStats * option Alert) :
  poll (answers ++ [ans]) s
  = fetchSessionStats (fst ans) (snd ans) (fst (poll answers s))
      (snd (poll answers s)).
Proof. unfold poll. rewrite fold_left_app. reflexivity. Qed.

(** The page never clears its alert.  Over any sequence of answers to
    [fetchSessionStats], an alert that is shown stays shown (possibly
    replaced by a newer one); and as long as no successful answer carries an
    alert, the alert is the one shown before, even when the answers report
    none. *)
Theorem page_alert_never_cleared (answers : list (StatsResponse * ViewState))
    (stats : option SessionStats) (alert : option Alert) :
  (is_Some alert -> is_Some (snd (poll answers (stats, alert))))
  /\ (Forall (fun ans => ~ carries_alert ans) answers ->
      snd (poll answers (stats, alert)) = alert).
Proof.
  induction answers as [|ans answers IH] using rev_ind.
  - split; intros H; [exact H | reflexivity].
  - destruct IH as [IHsome IHquiet]. rewrite poll_snoc.
    unfold fetchSessionStats.
    split.
    + intros Hsome. specialize (IHsome Hsome).
      destruct (success (fst ans)); [|exact IHsome].
      destruct (resp_alert (fst ans)); [eexists; reflexivity | exact IHsome].
    + intros Hquiet. apply Forall_app in Hquiet as [Hbefore Hlast].
      inversion Hlast as [|? ? Hl _]; subst. clear Hlast. rename Hl into Hlast.
      specialize (IHquiet Hbefore).
      unfold carries_alert in Hlast.
      destruct (success (fst ans)) eqn:Hs; [|exact IHquiet].
      destruct (resp_alert (fst ans)) eqn:Ha; [|exact IHquiet].
      exfalso. apply Hlast. split; [reflexivity | eexists; reflexivity].
Qed.

Lemma page_alert_never_cleared_witness :
  (is_Some (Some sample_alert)
   /\ is_Some (snd (poll [(quiet_response, initialView);
                          (failed_response, initialView)]
                         (None, Some sample_alert))))
  /\ (Forall (fun ans => ~ carries_alert ans)
        [(quiet_response, initialView); (failed_response, initialView)]
      /\ snd (poll [(quiet_response, initialView);
                    (failed_response, initialView)]
                   (None, Some sample_alert))
         = Some sample_alert).
Proof.
  destruct (page_alert_never_cleared
              [(quiet_response, initialView); (failed_response, initialView)]
              None (Some sample_alert)) as [Hsome Hquiet].
  assert (Hset : is_Some (Some sample_alert)) by (eexists; reflexivity).
  assert (Hnone : Forall (fun ans => ~ carries_alert ans)
                    [(quiet_response, initialView);
                     (failed_response, initialView)]).
  { repeat constructor; intros [Hs [a Ha]]; simpl in *; discriminate. }
  split.
  - split; [exact Hset | exact (Hsome Hset)].
  - split; [exact Hnone | exact (Hquiet Hnone)].
Defined.

(** The newest event is the last entry of the timeline and the entry of its
    participant in the map: both carry its emotion and confidence, the
    timeline with the local time string of the delivery, the map with the
    date object. *)
Theorem newest_event_in_timeline_and_map (earlier : list (Z * EmotionData))
    (now : Z) (data : EmotionData) :
  last (emotionTimeline (deliver (earlier ++ [(now, data)]) initialView))
  = Some (with_timestamp data (TsLocaleTimeString now))
  /\ participantEmotions (deliver (earlier ++ [(now, data)]) initialView)
       !! participantId data
     = Some (with_timestamp data (TsDate now)).
Proof.
  split.
  - destruct (deliver_initial_timeline (earlier ++ [(now, data)])) as [-> _].
    rewrite map_app. simpl map.
    change MAX_TIMELINE_POINTS with (S 19).
    rewrite slice_last_snoc, last_snoc. reflexivity.
  - rewrite deliver_app. simpl. apply lookup_insert_eq.
Qed.

Lemma slice_last_subseteq {A} n (l : list A) (x : A) :
  x ∈ slice_last n l -> x ∈ l.
Proof.
  unfold slice_last. intros Hin.
  rewrite <- (take_drop (length l - n) l). apply elem_of_app. right. exact Hin.
Qed.

(** Every entry of the timeline belongs to a participant of the map: the
    participant panel lists at least the participants the timeline chart
    draws. *)
Theorem timeline_participants_in_map (updates : list (Z * EmotionData))
    (e : EmotionData) :
  e ∈ emotionTimeline (deliver updates initialView) ->
  is_Some (participantEmotions (deliver updates initialView) !! participantId e).
Proof.
  intros Hin.
  destruct (deliver_initial_timeline updates) as [Htl _].
  rewrite Htl in Hin. apply slice_last_subseteq in Hin.
  apply list_elem_of_In, in_map_iff in Hin as [u [<- Hu]].
  apply elem_of_dom. rewrite deliver_dom.
  apply elem_of_union. left. apply elem_of_list_to_set.
  unfold ids_of. apply list_elem_of_In, in_map_iff.
  exists u. split; [reflexivity | exact Hu].
Qed.

Lemma timeline_participants_in_map_witness :
  stamp sad_update ∈ emotionTimeline (deliver [sad_update] initialView)
  /\ is_Some (participantEmotions (deliver [sad_update] initialView)
                !! participantId (stamp sad_update)).
Proof.
  assert (Hin : stamp sad_update
                ∈ emotionTimeline (deliver [sad_update] initialView)).
  { apply list_elem_of_In. left. reflexivity. }
  split; [exact Hin|].
  apply (timeline_participants_in_map [sad_update] (stamp sad_update)).
  exact Hin.
Defined.

(** * Properties of the timeline chart *)

Section Objects.

Context {V : Type}.
Implicit Types obj : list (string * V).

Lemma own_property_None key obj :
  own_property key obj = None <-> ~ In key (Object_keys obj).
Proof.
  induction obj as [|[k v] obj IH]; simpl.
  - split; [intros _ H; exact H | reflexivity].
  - destruct (String.eqb_spec key k) as [->|Hne].
    + split; [discriminate | intros H; exfalso; apply H; left; reflexivity].
    + rewrite IH. split.
      * intros Hnot [Heq|Hin]; [congruence | exact (Hnot Hin)].
      * intros Hnot Hin. apply Hnot. right. exact Hin.
Qed.

Lemma Object_keys_alter (f : V -> V) key obj :
  Object_keys (alter_property f key obj) = Object_keys obj.
Proof.
  induction obj as [|[k v] obj IH]; simpl; [reflexivity|].
  destruct (String.eqb key k); simpl; [reflexivity|].
  f_equal. exact IH.
Qed.

Lemma own_property_alter (f : V -> V) key key' obj :
  own_property key (alter_property f key' obj)
  = if String.eqb key key' then f <$> own_property key obj
    else own_property key obj.
Proof.
  induction obj as [|[k v] obj IH]; simpl.
  - destruct (String.eqb key key'); reflexivity.
  - destruct (String.eqb_spec key' k) as [Hk'|Hk'];
    destruct (String.eqb_spec key key') as [Hkk|Hkk]; simpl;
    destruct (String.eqb_spec key k) as [Hk|Hk]; try congruence;
    try reflexivity.
Qed.

Lemma Forall_alter (P : string * V -> Prop) (f : V -> V) key obj :
  (forall k v, P (k, v) -> P (k, f v)) ->
  Forall P obj -> Forall P (alter_property f key obj).
Proof.
  intros Hf Hall. induction Hall as [|[k v] obj Hkv Hall IH]; simpl.
  - constructor.
  - destruct (String.eqb key k); constructor; auto.
Qed.

End Objects.

Lemma truthy_string_iff (s : string) : truthy_string s = true <-> s <> ""%string.
Proof.
  unfold truthy_string. destruct (String.eqb_spec s ""%string); simpl.
  - split; [discriminate | contradiction].
  - split; [intros _; assumption | reflexivity].
Qed.

Lemma includes_In (arr : list string) (x : string) :
  includes arr x = true <-> In x arr.
Proof.
  unfold includes. rewrite existsb_exists. split.
  - intros [y [Hin Heq]]. apply String.eqb_eq in Heq. subst. exact Hin.
  - intros Hin. exists x. split; [exact Hin | apply String.eqb_refl].
Qed.

(** One entry throws exactly when its emotion is unknown. *)
Lemma fill_entry_None (n idx : nat) (entry : EmotionData)
    (emotions : list (string * list Q)) :
  emotions_ok n emotions ->
  fill_entry idx entry emotions = None <-> unknown_emotion (emotion entry).
Proof.
  intros [Hkeys _]. unfold fill_entry, get_property, unknown_emotion.
  rewrite <- Hkeys, <- own_property_None, <- truthy_string_iff.
  destruct (truthy_string (emotion entry)).
  2:{ split; [discriminate | intros [H _]; discriminate H]. }
  destruct (own_property (emotion entry) emotions) as [values|].
  { split; [discriminate | intros (_ & H & _); discriminate H]. }
  destruct (includes Object_prototype_names (emotion entry)) eqn:Hinc.
  - apply includes_In in Hinc.
    split; [discriminate | intros (_ & _ & H); contradiction].
  - split; [|reflexivity]. intros _. repeat split.
    intros Hin. apply includes_In in Hin. congruence.
Qed.

Lemma fill_entry_ok (n idx : nat) (entry : EmotionData)
    (emotions emotions' : list (string * list Q)) :
  emotions_ok n emotions ->
  fill_entry idx entry emotions = Some emotions' ->
  emotions_ok n emotions'.
Proof.
  intros [Hkeys Hlen]. unfold fill_entry.
  destruct (truthy_string (emotion entry)); [|intros [= <-]; split; assumption].
  destruct (get_property emotions (emotion entry));
    [|intros [= <-]; split; assumption|discriminate].
  intros [= <-]. split.
  - rewrite Object_keys_alter. exact Hkeys.
  - apply Forall_alter; [|exact Hlen].
    intros k v Hv. simpl in *. rewrite length_insert. exact Hv.
Qed.

(** What one entry does to the array of a key. *)
Lemma fill_entry_values (idx : nat) (entry : EmotionData)
    (emotions emotions' : list (string * list Q)) (key : string) :
  key <> ""%string ->
  fill_entry idx entry emotions = Some emotions' ->
  own_property key emotions'
  = if String.eqb key (emotion entry)
    then (fun values => <[idx := or_0 (confidence entry)]> values)
           <$> own_property key emotions
    else own_property key emotions.
Proof.
  intros Hkey. unfold fill_entry, get_property.
  destruct (String.eqb_spec key (emotion entry)) as [->|Hne].
  - apply truthy_string_iff in Hkey. rewrite Hkey.
    destruct (own_property (emotion entry) emotions) as [values|] eqn:Hown.
    + intros [= <-]. rewrite own_property_alter, String.eqb_refl, Hown.
      reflexivity.
    + destruct (includes _ _); [|discriminate].
      intros [= <-]. rewrite Hown. reflexivity.
  - destruct (truthy_string (emotion entry)); [|intros [= <-]; reflexivity].
    destruct (own_property (emotion entry) emotions);
      [|destruct (includes _ _); [|discriminate]]; intros [= <-].
    + rewrite own_property_alter.
      destruct (String.eqb_spec key (emotion entry)); [contradiction|].
      reflexivity.
    + reflexivity.
Qed.

Lemma fill_from_ok (n : nat) (data : list EmotionData) :
  forall (idx : nat) (emotions emotions' : list (string * list Q)),
  emotions_ok n emotions ->
  fill_from idx data emotions = Some emotions' ->
  emotions_ok n emotions'.
Proof.
  induction data as [|entry rest IH]; intros idx emotions emotions' Hok; simpl.
  - intros [= <-]. exact Hok.
  - destruct (fill_entry idx entry emotions) as [e1|] eqn:Hstep; [|discriminate].
    apply IH. exact (fill_entry_ok _ _ _ _ _ Hok Hstep).
Qed.

Lemma fill_from_None (n : nat) (data : list EmotionData) :
  forall (idx : nat) (emotions : list (string * list Q)),
  emotions_ok n emotions ->
  fill_from idx data emotions = None
  <-> Exists (fun e => unknown_emotion (emotion e)) data.
Proof.
  induction data as [|entry rest IH]; intros idx emotions Hok; simpl.
  - split; [discriminate | intros H; inversion H].
  - rewrite Exists_cons, <- (fill_entry_None n idx entry emotions Hok).
    destruct (fill_entry idx entry emotions) as [e1|] eqn:Hstep.
    + rewrite (IH _ _ (fill_entry_ok _ _ _ _ _ Hok Hstep)).
      split; [intros H; right; exact H | intros [H|H]; [discriminate H | exact H]].
    + split; [intros _; left; reflexivity | reflexivity].
Qed.

(** The array of a key after the loop has run over [data] from index [idx]:
    position j holds the confidence of the entry at j when that entry has
    the key's emotion, and what it held before otherwise. *)
Lemma fill_from_values (key : string) (data : list EmotionData) :
  key <> ""%string ->
  forall (idx : nat) (emotions emotions' : list (string * list Q))
         (arr : list Q),
  fill_from idx data emotions = Some emotions' ->
  own_property key emotions = Some arr ->
  (idx + length data <= length arr)%nat ->
  exists arr' : list Q,
    own_property key emotions' = Some arr'
    /\ length arr' = length arr
    /\ forall j : nat,
         arr' !! j
         = match (if (idx <=? j)%nat then data !! (j - idx)%nat else None) with
           | Some entry =>
             if String.eqb key (emotion entry)
             then Some (or_0 (confidence entry)) else arr !! j
           | None => arr !! j
           end.
Proof.
  intros Hkey.
  induction data as [|entry rest IH]; intros idx emotions emotions' arr; simpl.
  - intros [= <-] Hown _. exists arr. repeat split; [exact Hown|].
    intros j. destruct (idx <=? j)%nat; [rewrite lookup_nil|]; reflexivity.
  - destruct (fill_entry idx entry emotions) as [e1|] eqn:Hstep; [|discriminate].
    intros Hrest Hown Hlen.
    pose proof (fill_entry_values idx entry emotions e1 key Hkey Hstep) as Hown1.
    rewrite Hown in Hown1. simpl in Hown1.
    set (arr1 := if String.eqb key (emotion entry)
                 then <[idx := or_0 (confidence entry)]> arr else arr).
    assert (Hown1' : own_property key e1 = Some arr1).
    { rewrite Hown1. unfold arr1.
      destruct (String.eqb key (emotion entry)); reflexivity. }
    assert (Hlen1 : length arr1 = length arr).
    { unfold arr1. destruct (String.eqb key (emotion entry));
        [apply length_insert | reflexivity]. }
    destruct (IH (S idx) e1 emotions' arr1 Hrest Hown1') as (arr' & Ha & Hl & Hv);
      [lia|].
    exists arr'. split; [exact Ha|]. split; [lia|].
    intros j. rewrite Hv.
    destruct (Nat.lt_trichotomy j idx) as [Hlt|[->|Hgt]].
    + destruct (Nat.leb_spec (S idx) j); [lia|].
      destruct (Nat.leb_spec idx j); [lia|].
      unfold arr1. destruct (String.eqb key (emotion entry)); [|reflexivity].
      apply list_lookup_insert_ne. lia.
    + destruct (Nat.leb_spec (S idx) idx); [lia|].
      rewrite Nat.leb_refl, Nat.sub_diag. simpl.
      unfold arr1. destruct (String.eqb key (emotion entry)); [|reflexivity].
      apply list_lookup_insert_eq. lia.
    + destruct (Nat.leb_spec (S idx) j); [|lia].
      destruct (Nat.leb_spec idx j); [|lia].
      replace (j - idx)%nat with (S (j - S idx)) by lia. simpl.
      assert (Harr : arr1 !! j = arr !! j).
      { unfold arr1. destruct (String.eqb key (emotion entry)); [|reflexivity].
        apply list_lookup_insert_ne. lia. }
      rewrite Harr. reflexivity.
Qed.

Lemma initial_emotions_ok (n : nat) :
  emotions_ok n (map (fun emotion => (emotion, replicate n (0 : Q)))
                     (Object_keys emotionColors)).
Proof.
  split; [reflexivity|].
  simpl. repeat constructor; simpl; apply length_replicate.
Qed.

Lemma chartData_Some (data : list EmotionData) (cd : ChartData) :
  chartData data = Some cd ->
  exists emotions : list (string * list Q),
    fill_from 0 data
      (map (fun emotion => (emotion, replicate (length data) (0 : Q)))
           (Object_keys emotionColors)) = Some emotions
    /\ emotions_ok (length data) emotions
    /\ labels cd
       = rev (imap (fun index _ =>
                      ("T-" ++ digits (Z.of_nat (length data - index)))%string)
                   data)
    /\ datasets cd
       = map (fun kv =>
                {| ds_label := capitalize (fst kv);
                   ds_data := snd kv;
                   borderColor := own_property (fst kv) emotionColors;
                   backgroundColor :=
                     with_alpha (own_property (fst kv) emotionColors) |})
             emotions.
Proof.
  unfold chartData.
  destruct (fill_from 0 data _) as [emotions|] eqn:Hfill; [|discriminate].
  intros [= <-]. exists emotions. split; [reflexivity|].
  split; [exact (fill_from_ok _ _ _ _ _ (initial_emotions_ok _) Hfill)|].
  split; [reflexivity|]. simpl.
  apply map_ext. intros [k v]. reflexivity.
Qed.

(** When the chart data are computed, there is one label per entry,
    counting up from T-1 for the oldest entry to T-n for the newest, and
    seven datasets, Happy to Neutral in the order of the colour table, each
    with one value per entry. *)
Theorem chart_shape (data : list EmotionData) (cd : ChartData) :
  chartData data = Some cd ->
  length (labels cd) = length data
  /\ (forall i : nat, (i < length data)%nat ->
        labels cd !! i = Some ("T-" ++ digits (Z.of_nat (S i)))%string)
  /\ map ds_label (datasets cd)
     = ["Happy"; "Sad"; "Angry"; "Surprise"; "Fear"; "Disgust"; "Neutral"]%string
  /\ Forall (fun ds => length (ds_data ds) = length data) (datasets cd).
Proof.
  intros Hcd.
  destruct (chartData_Some data cd Hcd) as (emotions & _ & [Hkeys Hlen] & Hl & Hd).
  split; [rewrite Hl, length_rev, length_imap; reflexivity|].
  split.
  { intros i Hi. rewrite Hl, rev_alt.
    change (rev_append ?l []) with (reverse l).
    rewrite reverse_lookup by (rewrite length_imap; exact Hi).
    rewrite length_imap, list_lookup_imap.
    destruct (lookup_lt_is_Some_2 data (length data - S i)) as [x Hx]; [lia|].
    rewrite Hx. simpl. do 3 f_equal. lia. }
  split.
  { rewrite Hd, map_map. simpl.
    rewrite <- (map_map fst capitalize). change (map fst emotions)
      with (Object_keys emotions). rewrite Hkeys. reflexivity. }
  rewrite Hd. apply Forall_map. exact Hlen.
Qed.

Lemma chart_shape_witness :
  chartData [neutral_event; angry_event]
  = Some (default (mkChart [] []) (chartData [neutral_event; angry_event]))
  /\ length (labels (default (mkChart [] [])
                       (chartData [neutral_event; angry_event])))
     = length [neutral_event; angry_event].
Proof.
  assert (Hcd : chartData [neutral_event; angry_event]
                = Some (default (mkChart [] [])
                          (chartData [neutral_event; angry_event]))).
  { reflexivity. }
  split; [exact Hcd|].
  apply (chart_shape _ _ Hcd).
Defined.

Lemma chartData_None_iff (data : list EmotionData) :
  chartData data = None
  <-> Exists (fun e => unknown_emotion (emotion e)) data.
Proof.
  rewrite <- (fill_from_None (length data) data 0 _ (initial_emotions_ok _)).
  unfold chartData.
  destruct (fill_from 0 data _); split; try discriminate; reflexivity.
Qed.

(** The chart computation throws exactly when some entry has an emotion
    that is non-empty, is not one of the seven keys of the colour table and
    is not a name inherited from [Object.prototype]. *)
Theorem chart_throws_on_unknown_emotion (data : list EmotionData) :
  chartData data = None
  <-> Exists (fun e => unknown_emotion (emotion e)) data.
Proof.
  pose proof (fill_from_None (length data) data 0 _
                (initial_emotions_ok (length data))) as Hfill.
  unfold chartData.
  destruct (fill_from 0 data _) as [emotions|].
  - split; [discriminate|]. intros Hbad. apply Hfill in Hbad. discriminate Hbad.
  - split; [intros _; apply Hfill; reflexivity | reflexivity].
Qed.

Lemma chart_throws_on_unknown_emotion_witness :
  Exists (fun e => unknown_emotion (emotion e)) [neutral_event; bored_event]
  /\ chartData [neutral_event; bored_event] = None.
Proof.
  assert (Hbad : Exists (fun e => unknown_emotion (emotion e))
                   [neutral_event; bored_event]).
  { apply Exists_cons_tl, Exists_cons_hd. split; [discriminate|].
    split; simpl; intros H;
      repeat (destruct H as [H|H]; [discriminate H|]); exact H. }
  split; [exact Hbad|].
  apply (chart_throws_on_unknown_emotion [neutral_event; bored_event]).
  exact Hbad.
Defined.

Lemma list_lookup_fmap_map {A B} (f : A -> B) (l : list A) (i : nat) :
  map f l !! i = f <$> (l !! i).
Proof. exact (list_lookup_fmap f l i). Qed.

Lemma own_property_lookup {V} (obj : list (string * V)) :
  NoDup (Object_keys obj) ->
  forall (k : nat) (key : string) (v : V),
  obj !! k = Some (key, v) -> own_property key obj = Some v.
Proof.
  induction obj as [|[k0 v0] obj IH]; intros Hnd k key v Hk.
  - rewrite lookup_nil in Hk. discriminate.
  - simpl in Hnd. apply NoDup_cons in Hnd as [Hnotin Hnd].
    destruct k as [|k]; simpl in *.
    + injection Hk as -> ->. rewrite String.eqb_refl. reflexivity.
    + destruct (String.eqb_spec key k0) as [->|Hne].
      * exfalso. apply Hnotin. apply list_elem_of_In, in_map_iff.
        exists (k0, v). split; [reflexivity|].
        apply list_elem_of_In, list_elem_of_lookup. exists k. exact Hk.
      * exact (IH Hnd k key v Hk).
Qed.

Lemma emotionColors_keys_NoDup : NoDup (Object_keys emotionColors).
Proof.
  apply NoDup_ListNoDup. simpl.
  repeat (constructor;
          [intros H; repeat (destruct H as [H|H]; [discriminate H|]); exact H|]).
  constructor.
Qed.

Lemma emotionColors_key_nonempty (k : nat) (key : string) :
  Object_keys emotionColors !! k = Some key -> key <> ""%string.
Proof.
  intros Hk Hempty. subst key.
  apply list_elem_of_lookup_2, list_elem_of_In in Hk. simpl in Hk.
  repeat (destruct Hk as [Hk|Hk]; [discriminate Hk|]). exact Hk.
Qed.

(** The values the chart draws: in the dataset of a key, the point of an
    entry is the entry's confidence (0 when the confidence is 0) if the
    entry has the key's emotion, and 0 otherwise; so at every entry at most
    one of the seven lines is off zero. *)
Theorem chart_values (data : list EmotionData) (cd : ChartData)
    (k idx : nat) (key : string) (ds : Dataset) (entry : EmotionData) :
  chartData data = Some cd ->
  Object_keys emotionColors !! k = Some key ->
  datasets cd !! k = Some ds ->
  data !! idx = Some entry ->
  ds_label ds = capitalize key
  /\ ds_data ds !! idx
     = Some (if String.eqb key (emotion entry)
             then or_0 (confidence entry) else 0).
Proof.
  intros Hcd Hkey Hds Hentry.
  destruct (chartData_Some data cd Hcd) as (emotions & Hfill & [Hkeys Hlen] & _ & Hd).
  rewrite Hd in Hds. rewrite list_lookup_fmap_map in Hds.
  destruct (emotions !! k) as [[key' values]|] eqn:Hk; [|discriminate Hds].
  simpl in Hds. injection Hds as <-. simpl.
  assert (Hsame : key' = key).
  { assert (H : Object_keys emotions !! k = Some key').
    { unfold Object_keys. rewrite list_lookup_fmap_map, Hk. reflexivity. }
    rewrite Hkeys, Hkey in H. congruence. }
  subst key'. split; [reflexivity|].
  assert (Hown : own_property key emotions = Some values).
  { apply (own_property_lookup emotions) with (k := k); [|exact Hk].
    rewrite Hkeys. exact emotionColors_keys_NoDup. }
  assert (Hinit : own_property key
                    (map (fun emotion => (emotion, replicate (length data) (0 : Q)))
                         (Object_keys emotionColors))
                  = Some (replicate (length data) 0)).
  { apply (own_property_lookup _) with (k := k).
    - unfold Object_keys at 1. rewrite map_map. simpl.
      exact emotionColors_keys_NoDup.
    - rewrite list_lookup_fmap_map, Hkey. reflexivity. }
  destruct (fill_from_values key data (emotionColors_key_nonempty k key Hkey)
              0 _ emotions _ Hfill Hinit) as (arr' & Ha & _ & Hv).
  { rewrite length_replicate. lia. }
  rewrite Hown in Ha. injection Ha as <-.
  rewrite Hv. simpl. rewrite Nat.sub_0_r, Hentry.
  destruct (String.eqb key (emotion entry)); [reflexivity|].
  apply lookup_replicate_2. apply lookup_lt_Some in Hentry. exact Hentry.
Qed.

Lemma chart_values_witness :
  chartData [neutral_event; angry_event] = Some sample_chart
  /\ Object_keys emotionColors !! 2%nat = Some "angry"%string
  /\ datasets sample_chart !! 2%nat = Some sample_dataset
  /\ [neutral_event; angry_event] !! 1%nat = Some angry_event
  /\ ds_label sample_dataset = capitalize "angry"
  /\ ds_data sample_dataset !! 1%nat
     = Some (if String.eqb "angry" (emotion angry_event)
             then or_0 (confidence angry_event) else 0).
Proof.
  assert (H1 : chartData [neutral_event; angry_event] = Some sample_chart)
    by reflexivity.
  assert (H2 : Object_keys emotionColors !! 2%nat = Some "angry"%string)
    by reflexivity.
  assert (H3 : datasets sample_chart !! 2%nat = Some sample_dataset)
    by reflexivity.
  assert (H4 : [neutral_event; angry_event] !! 1%nat = Some angry_event)
    by reflexivity.
  split; [exact H1|]. split; [exact H2|]. split; [exact H3|].
  split; [exact H4|].
  exact (chart_values _ _ _ _ _ _ _ H1 H2 H3 H4).
Defined.

Lemma slice_last_keeps_recent {A} n (xs zs : list A) (y : A) :
  (length zs < n)%nat -> y ∈ slice_last n (xs ++ y :: zs).
Proof.
  intros Hn. unfold slice_last. rewrite length_app. simpl length.
  rewrite drop_app_le by lia.
  apply elem_of_app. right. left.
Qed.

(** On the page's timeline the chart is safe as long as every delivered
    emotion is one of the seven labels; an event with an unknown emotion
    makes the chart computation throw for as long as the event is among the
    twenty entries of the timeline. *)
Theorem chart_of_page_timeline :
  (forall updates : list (Z * EmotionData),
     Forall (fun u => In (emotion (snd u)) label_names) updates ->
     is_Some (chartData (emotionTimeline (deliver updates initialView))))
  /\ (forall (earlier later : list (Z * EmotionData)) (now : Z)
             (data : EmotionData),
        unknown_emotion (emotion data) ->
        (length later < MAX_TIMELINE_POINTS)%nat ->
        chartData (emotionTimeline
                     (deliver (earlier ++ (now, data) :: later) initialView))
        = None).
Proof.
  split.
  - intros updates Hall.
    destruct (chartData (emotionTimeline (deliver updates initialView)))
      as [cd|] eqn:Hcd; [eexists; reflexivity|].
    exfalso. apply chartData_None_iff, Exists_exists in Hcd
      as (e & Hin & _ & Hnokey & _).
    destruct (deliver_initial_timeline updates) as [Htl _].
    rewrite Htl in Hin. apply slice_last_subseteq in Hin.
    apply list_elem_of_In, in_map_iff in Hin as [u [<- Hu]].
    apply Hnokey. rewrite Forall_forall in Hall.
    apply (Hall u). apply list_elem_of_In. exact Hu.
  - intros earlier later now data Hunknown Hlater.
    apply chartData_None_iff, Exists_exists.
    exists (stamp (now, data)). split; [|exact Hunknown].
    destruct (deliver_initial_timeline (earlier ++ (now, data) :: later))
      as [-> _].
    rewrite map_app. simpl map.
    apply slice_last_keeps_recent. rewrite length_map. exact Hlater.
Qed.

Lemma chart_of_page_timeline_witness :
  (Forall (fun u => In (emotion (snd u)) label_names) three_updates
   /\ is_Some (chartData (emotionTimeline (deliver three_updates initialView))))
  /\ (unknown_emotion (emotion bored_event)
      /\ (length three_updates < MAX_TIMELINE_POINTS)%nat
      /\ chartData (emotionTimeline
                      (deliver ([sad_update] ++ (5%Z, bored_event) :: three_updates)
                         initialView))
         = None).
Proof.
  destruct chart_of_page_timeline as [Hsafe Hthrows].
  split.
  - assert (Hall : Forall (fun u => In (emotion (snd u)) label_names)
                     three_updates).
    { repeat constructor; simpl; tauto. }
    split; [exact Hall | exact (Hsafe three_updates Hall)].
  - assert (Hbad : unknown_emotion (emotion bored_event)).
    { split; [discriminate|].
      split; simpl; intros H;
        repeat (destruct H as [H|H]; [discriminate H|]); exact H. }
    assert (Hlen : (length three_updates < MAX_TIMELINE_POINTS)%nat).
    { unfold MAX_TIMELINE_POINTS. simpl. lia. }
    split; [exact Hbad|]. split; [exact Hlen|].
    exact (Hthrows [sad_update] three_updates 5%Z bored_event Hbad Hlen).
Defined.

(** * Properties of the dashboard of past sessions *)

Lemma filter_partition_length {A} (f : A -> bool) (l : list A) :
  (length (List.filter f l) + length (List.filter (fun x => negb (f x)) l)
   = length l)%nat.
Proof.
  induction l as [|x l IH]; [reflexivity|].
  simpl. destruct (f x); simpl; lia.
Qed.

(** Every report is counted exactly once, as completed or as active: the
    two tiles add up to the total, neither is negative, and the Active tile
    is the number of rows whose Duration cell reads In progress. *)
Theorem dashboard_tiles_partition (reports : list DashboardPage.Report) :
  let s := DashboardPage.stats reports in
  (DashboardPage.active s + DashboardPage.completed s = DashboardPage.total s)%Z
  /\ (0 <= DashboardPage.active s <= DashboardPage.total s)%Z
  /\ DashboardPage.active s
     = Z.of_nat
         (length
            (List.filter
               (fun r => DashboardPage.is_in_progress (DashboardPage.durationCell r))
               reports)).
Proof.
  simpl.
  pose proof (filter_partition_length DashboardPage.has_ended reports) as Hpart.
  assert (Hsame : List.filter
                    (fun r => DashboardPage.is_in_progress
                                (DashboardPage.durationCell r)) reports
                  = List.filter (fun r => negb (DashboardPage.has_ended r)) reports).
  { apply List.filter_ext. intros r.
    unfold DashboardPage.durationCell, DashboardPage.has_ended.
    destruct (DashboardPage.end_time r); reflexivity. }
  rewrite Hsame. repeat split; lia.
Qed.

Lemma fold_detections (reports : list DashboardPage.Report) : forall acc : Z,
  fold_left (fun sum r => (sum + DashboardPage.detections_or_0 r)%Z) reports acc
  = (acc + fold_left (fun sum r => (sum + DashboardPage.detections_or_0 r)%Z)
             reports 0)%Z.
Proof.
  induction reports as [|r reports IH]; intros acc; cbn [fold_left]; [lia|].
  rewrite (IH (acc + DashboardPage.detections_or_0 r)%Z).
  rewrite (IH (0 + DashboardPage.detections_or_0 r)%Z). lia.
Qed.

(** The Total Detections tile adds up over the reports: for two lists of
    reports it is the sum of their tiles, a report without a count adds
    nothing, and the tile is not negative when no count is. *)
Theorem dashboard_total_detections (rs1 rs2 : list DashboardPage.Report) :
  DashboardPage.totalDetections (DashboardPage.stats (rs1 ++ rs2))
  = (DashboardPage.totalDetections (DashboardPage.stats rs1)
     + DashboardPage.totalDetections (DashboardPage.stats rs2))%Z
  /\ (forall r : DashboardPage.Report,
        DashboardPage.total_detections r = None ->
        DashboardPage.totalDetections (DashboardPage.stats (rs1 ++ [r]))
        = DashboardPage.totalDetections (DashboardPage.stats rs1))
  /\ (Forall (fun r => forall n, DashboardPage.total_detections r = Some n ->
                                 (0 <= n)%Z) rs1 ->
      (0 <= DashboardPage.totalDetections (DashboardPage.stats rs1))%Z).
Proof.
  unfold DashboardPage.stats; cbn [DashboardPage.totalDetections].
  split; [|split].
  - rewrite fold_left_app, fold_detections. reflexivity.
  - intros r Hr. rewrite fold_left_app. cbn [fold_left].
    assert (Hzero : DashboardPage.detections_or_0 r = 0%Z)
      by (unfold DashboardPage.detections_or_0; rewrite Hr; reflexivity).
    rewrite Hzero. lia.
  - intros Hall. induction Hall as [|r rs Hr Hall IH]; cbn [fold_left]; [lia|].
    rewrite fold_detections.
    assert (0 <= DashboardPage.detections_or_0 r)%Z.
    { unfold DashboardPage.detections_or_0.
      destruct (DashboardPage.total_detections r) as [n|]; [|lia].
      specialize (Hr n eq_refl). destruct (n =? 0)%Z; lia. }
    lia.
Qed.

Lemma dashboard_total_detections_witness :
  (DashboardPage.total_detections running_report = None
   /\ DashboardPage.totalDetections
        (DashboardPage.stats ([finished_report] ++ [running_report]))
      = DashboardPage.totalDetections (DashboardPage.stats [finished_report]))
  /\ (Forall (fun r => forall n, DashboardPage.total_detections r = Some n ->
                                 (0 <= n)%Z) [finished_report]
      /\ (0 <= DashboardPage.totalDetections
                 (DashboardPage.stats [finished_report]))%Z).
Proof.
  destruct (dashboard_total_detections [finished_report] [running_report])
    as (_ & Hnone & Hpos).
  split.
  - split; [reflexivity|]. apply Hnone. reflexivity.
  - assert (Hall : Forall (fun r => forall n,
                             DashboardPage.total_detections r = Some n ->
                             (0 <= n)%Z) [finished_report]).
    { repeat constructor. intros n [= <-]. lia. }
    split; [exact Hall | exact (Hpos Hall)].
Defined.

Lemma Math_round_near (x : Q) :
  inject_Z (Math_round x) - (1 # 2) <= x /\ x < inject_Z (Math_round x) + (1 # 2).
Proof.
  unfold Math_round.
  pose proof (Qfloor_le (x + (1 # 2))) as Hlo.
  pose proof (Qlt_floor (x + (1 # 2))) as Hhi.
  rewrite inject_Z_plus in Hhi. change (inject_Z 1) with 1 in Hhi.
  split; lra.
Qed.

(** The Duration cell of a finished session shows the minutes between start
    and end rounded to the nearest minute: the duration lies within half a
    minute of it (a session of less than 30 seconds shows 0 min). *)
Theorem duration_cell_nearest_minute (report : DashboardPage.Report) (e : Z) :
  DashboardPage.end_time report = Some e ->
  exists n : Z,
    DashboardPage.durationCell report = DashboardPage.Minutes n
    /\ (60000 * n - 30000 <= e - DashboardPage.start_time report
        < 60000 * n + 30000)%Z.
Proof.
  intros He. unfold DashboardPage.durationCell. rewrite He.
  eexists. split; [reflexivity|].
  set (d := (e - DashboardPage.start_time report)%Z).
  destruct (Math_round_near (inject_Z d / 60000)) as [Hlo Hhi].
  set (n := Math_round (inject_Z d / 60000)) in *.
  assert (Hd : inject_Z d == (inject_Z d / 60000) * 60000) by field.
  split.
  - rewrite Zle_Qle. unfold Z.sub.
    rewrite inject_Z_plus, inject_Z_mult, inject_Z_opp.
    change (inject_Z 60000) with 60000. change (inject_Z 30000) with 30000.
    lra.
  - rewrite Zlt_Qlt. rewrite inject_Z_plus, inject_Z_mult.
    change (inject_Z 60000) with 60000. change (inject_Z 30000) with 30000.
    lra.
Qed.

Lemma duration_cell_nearest_minute_witness :
  DashboardPage.end_time finished_report = Some 100000%Z
  /\ exists n : Z,
       DashboardPage.durationCell finished_report = DashboardPage.Minutes n
       /\ (60000 * n - 30000
           <= 100000 - DashboardPage.start_time finished_report
           < 60000 * n + 30000)%Z.
Proof.
  split; [reflexivity|].
  apply (duration_cell_nearest_minute finished_report 100000). reflexivity.
Defined.

(** * Properties of the timeline table of the session report *)

(** The table shows the last 20 entries of the timeline, newest first: it
    has min(n, 20) rows, row i is the entry i places before the newest, and
    the note about hidden entries is shown exactly when the table has fewer
    rows than the timeline has entries. *)
Theorem report_table_last_20 {A} (timeline : list A) :
  length (timelineRows timeline) = Nat.min (length timeline) 20
  /\ (forall i : nat, (i < length (timelineRows timeline))%nat ->
        timelineRows timeline !! i = timeline !! (length timeline - S i)%nat)
  /\ (showsLast20Note timeline = true
      <-> (length (timelineRows timeline) < length timeline)%nat)
  /\ (timelineSection (Some timeline) = true <-> timelineRows timeline <> []).
Proof.
  unfold timelineRows.
  assert (Hlen : length (rev (slice_last 20 timeline))
                 = Nat.min (length timeline) 20).
  { rewrite length_rev. apply slice_last_length. }
  split; [exact Hlen|]. split; [|split].
  - intros i Hi. rewrite Hlen in Hi. rewrite rev_alt.
    change (rev_append ?l []) with (reverse l).
    rewrite reverse_lookup by (rewrite slice_last_length; exact Hi).
    rewrite slice_last_length. unfold slice_last. rewrite lookup_drop.
    f_equal. lia.
  - rewrite Hlen. unfold showsLast20Note. rewrite Nat.ltb_lt. lia.
  - unfold timelineSection. rewrite Nat.ltb_lt.
    rewrite <- length_zero_iff_nil, Hlen. lia.
Qed.

Lemma report_table_last_20_witness :
  (0 < length (timelineRows twenty_one_updates))%nat
  /\ timelineRows twenty_one_updates !! 0%nat
     = twenty_one_updates !! (length twenty_one_updates - 1)%nat.
Proof.
  assert (Hpos : (0 < length (timelineRows twenty_one_updates))%nat).
  { vm_compute. lia. }
  split; [exact Hpos|].
  destruct (report_table_last_20 twenty_one_updates) as (_ & Hrow & _).
  exact (Hrow 0%nat Hpos).
Defined.

(** * Properties of the decimal displays *)

(** Up to 1000 the digits with the point inserted are the tens, a point and
    the last digit (checked on each of the 1001 integers). *)
Lemma insert_point_1 (n : Z) :
  (0 <= n <= 1000)%Z ->
  insert_point 1 (digits n)
  = (digits (n / 10) ++ "." ++ digits (n mod 10))%string.
Proof.
  intros Hn.
  assert (Hall : forallb
                   (fun k => String.eqb
                               (insert_point 1 (digits (Z.of_nat k)))
                               (digits (Z.of_nat k / 10) ++ "."
                                ++ digits (Z.of_nat k mod 10))%string)
                   (seq 0 1001) = true).
  { vm_compute. reflexivity. }
  rewrite forallb_forall in Hall.
  specialize (Hall (Z.to_nat n)).
  rewrite Z2Nat.id in Hall by lia.
  apply String.eqb_eq, Hall, in_seq. lia.
Qed.

Section DecimalProperties.

Variable frac : Q -> string.

(** [toFixed(1)] on a percentage: the tenths n nearest to it, shown as
    the integer part, a point and one digit. *)
Lemma toFixed_1_percentage (x : Q) :
  0 <= x -> x <= 100 ->
  exists n : Z,
    (0 <= n <= 1000)%Z
    /\ toFixed frac 1 x = (digits (n / 10) ++ "." ++ digits (n mod 10))%string
    /\ Qabs (x - inject_Z n / 10) <= 1 # 20.
Proof.
  intros Hlo Hhi.
  assert (Habs : Qabs x == x) by (apply Qabs_pos; exact Hlo).
  pose proof (Qfloor_le (Qabs x * inject_Z (10 ^ Z.of_nat 1) + (1 # 2))) as Hfl.
  pose proof (Qlt_floor (Qabs x * inject_Z (10 ^ Z.of_nat 1) + (1 # 2))) as Hfu.
  set (n := Qfloor (Qabs x * inject_Z (10 ^ Z.of_nat 1) + (1 # 2))) in *.
  change (inject_Z (10 ^ Z.of_nat 1)) with 10 in Hfl, Hfu.
  rewrite inject_Z_plus in Hfu. change (inject_Z 1) with 1 in Hfu.
  rewrite Habs in Hfl, Hfu.
  assert (Hn : (0 <= n <= 1000)%Z).
  { split.
    - apply Z.lt_succ_r. rewrite Zlt_Qlt, <- Z.add_1_r, inject_Z_plus.
      change (inject_Z 1) with 1. change (inject_Z 0) with 0. lra.
    - apply Z.lt_succ_r. rewrite Zlt_Qlt.
      change (inject_Z (Z.succ 1000)) with 1001. lra. }
  exists n. split; [exact Hn|]. split.
  - unfold toFixed.
    apply Qle_bool_iff in Hlo. rewrite Hlo.
    destruct (Qle_bool (inject_Z (10 ^ 21)) (Qabs x)) eqn:Ebig.
    { apply Qle_bool_iff in Ebig. rewrite Habs in Ebig.
      assert (Hbig : 100 < inject_Z (10 ^ 21)) by reflexivity. lra. }
    fold n. rewrite (insert_point_1 n Hn). reflexivity.
  - clearbody n. apply Qabs_Qle_condition.
    assert (Hq : inject_Z n / 10 * 10 == inject_Z n) by field.
    split; lra.
Qed.

(** The banner of an alert shows the percentage with one decimal: for a
    percentage between 0 and 100 the detail line is "Disengagement: ", the
    tenths nearest to the percentage written as integer part, point and one
    digit, and the percent sign; the banner is red for a high alert and
    yellow for a low one, and absent without an alert. *)
Theorem alert_banner_detail (a : Alert) :
  0 <= percentage a -> percentage a <= 100 ->
  exists n : Z,
    (0 <= n <= 1000)%Z
    /\ Qabs (percentage a - inject_Z n / 10) <= 1 # 20
    /\ alertBanner frac (Some a)
       = Some {| banner_class :=
                   match level a with
                   | high => "bg-red-100 border-red-500 text-red-700"
                   | low => "bg-yellow-100 border-yellow-500 text-yellow-700"
                   end%string;
                 banner_message := message a;
                 banner_detail :=
                   ("Disengagement: "
                    ++ (digits (n / 10) ++ "." ++ digits (n mod 10))
                    ++ "%")%string |}.
Proof.
  intros Hlo Hhi.
  destruct (toFixed_1_percentage (percentage a) Hlo Hhi) as (n & Hn & Hs & Hnear).
  exists n. split; [exact Hn|]. split; [exact Hnear|].
  unfold alertBanner. rewrite Hs. reflexivity.
Qed.

Lemma Number_toString_integer (n : Z) :
  (Z.abs n < 10 ^ 21)%Z -> Number_toString frac (inject_Z n) = digits n.
Proof.
  intros Hn. unfold Number_toString. rewrite Qfloor_Z.
  rewrite Qeq_bool_refl. apply Z.ltb_lt in Hn. rewrite Hn. reflexivity.
Qed.

(** The floating window and the statistics panel show the same number: for
    every score between 0 and 100 [Math.round] and [toFixed(0)] give the
    same text.  They differ when the score is absent (NaN% against 0%).  In
    the floating window the colour of the number and the colour of the bar
    are always taken from the same band. *)
Theorem floating_window_matches_stats (s : Q) :
  0 <= s -> s <= 100 ->
  floatingScoreText frac (Some s) = score_text (renderEngagement frac (Some s))
  /\ floatingScoreText frac None = "NaN%"%string
  /\ score_text (renderEngagement frac None) = "0%"%string
  /\ (forall score : option Q,
        (getEngagementColor score = "text-green-600"%string
         <-> engagementBarColor score = "bg-green-500"%string)
        /\ (getEngagementColor score = "text-yellow-600"%string
            <-> engagementBarColor score = "bg-yellow-500"%string)
        /\ (getEngagementColor score = "text-red-600"%string
            <-> engagementBarColor score = "bg-red-500"%string)).
Proof.
  intros Hlo Hhi. split; [|split; [reflexivity|split; [reflexivity|]]].
  - assert (Habs : Qabs s == s) by (apply Qabs_pos; exact Hlo).
    assert (Hround : Math_round s = Qfloor (Qabs s + (1 # 2))).
    { unfold Math_round. apply Qfloor_comp. rewrite Habs. reflexivity. }
    unfold floatingScoreText, renderEngagement; cbn [score_text].
    destruct (Qeq_dec s 0) as [Hz|Hnz].
    + rewrite (truthy_zero s Hz).
      assert (H0 : Math_round s = 0%Z).
      { unfold Math_round.
        rewrite (Qfloor_comp (s + (1 # 2)) (1 # 2)) by (rewrite Hz; reflexivity).
        reflexivity. }
      rewrite H0. reflexivity.
    + rewrite (truthy_nonzero s Hnz).
      assert (Hpos : 0 < s).
      { apply Qle_lteq in Hlo. destruct Hlo as [H|H]; [exact H|].
        exfalso. apply Hnz. symmetry. exact H. }
      rewrite (toFixed0_score frac s Hpos Hhi), Hround.
      destruct (round_half_up_near s Hpos Hhi) as [_ Hrange].
      rewrite Number_toString_integer; [reflexivity|].
      apply Z.abs_lt. split; [lia|].
      apply Z.le_lt_trans with 100%Z; [lia | reflexivity].
  - intros score. unfold getEngagementColor, engagementBarColor.
    destruct (score_ge score 70); [|destruct (score_ge score 40)];
      repeat split; intros H; try reflexivity; discriminate H.
Qed.

Lemma Qsum_ge (data : list Q) : forall acc : Q,
  Forall (fun v => 0 <= v) data ->
  acc <= fold_left Qplus data acc
  /\ forall v : Q, In v data -> acc + v <= fold_left Qplus data acc.
Proof.
  induction data as [|x data IH]; intros acc Hall; simpl.
  - split; [lra | intros v []].
  - inversion Hall as [|? ? Hx Hrest]; subst.
    destruct (IH (acc + x) Hrest) as [Hacc Hin].
    split; [lra|].
    intros v [<-|Hv]; [exact Hacc|].
    specialize (Hin v Hv). lra.
Qed.

Lemma or_0_eq (x : Q) : or_0 x == x.
Proof.
  unfold or_0. destruct (Qeq_bool x 0) eqn:E; [|reflexivity].
  apply Qeq_bool_iff in E. symmetry. exact E.
Qed.

Lemma is_positive_number_iff (x : Q) : is_positive_number x = true <-> 0 < x.
Proof.
  unfold is_positive_number. destruct (Qle_bool x 0) eqn:E; simpl.
  - apply Qle_bool_iff in E. split; [discriminate | lra].
  - split; [|reflexivity]. intros _.
    apply Qnot_le_lt. intros H. apply Qle_bool_iff in H. congruence.
Qed.

(** The tooltip of the doughnut chart never divides by zero: when the
    counts sum to nothing it shows 0%.  Otherwise, for non-negative counts,
    the percentage of a slice is its share of the total in tenths of a
    percent, rounded to the nearest, written with one decimal. *)
Theorem tooltip_percentage (label : string) (parsed : Q) (data : list Q) :
  (fold_left Qplus data 0 <= 0 ->
   tooltipLabel frac label parsed data
   = (label ++ ": " ++ Number_toString frac (or_0 parsed) ++ " (0%)")%string)
  /\ (Forall (fun v => 0 <= v) data -> In parsed data ->
      0 < fold_left Qplus data 0 ->
      exists n : Z,
        (0 <= n <= 1000)%Z
        /\ Qabs (parsed / fold_left Qplus data 0 * 100 - inject_Z n / 10)
           <= 1 # 20
        /\ tooltipLabel frac label parsed data
           = (label ++ ": " ++ Number_toString frac (or_0 parsed) ++ " ("
              ++ (digits (n / 10) ++ "." ++ digits (n mod 10))
              ++ "%)")%string).
Proof.
  unfold tooltipLabel. split.
  - intros Hzero.
    destruct (is_positive_number (fold_left Qplus data 0)) eqn:E.
    { apply is_positive_number_iff in E. lra. }
    reflexivity.
  - intros Hall Hin Hpos.
    apply is_positive_number_iff in Hpos as Hpos'. rewrite Hpos'.
    destruct (Qsum_ge data 0 Hall) as [_ Hle]. specialize (Hle parsed Hin).
    assert (H0 : 0 <= parsed).
    { rewrite Forall_forall in Hall. apply Hall, list_elem_of_In, Hin. }
    pose proof (or_0_eq parsed) as Hor.
    set (total := fold_left Qplus data 0) in *.
    assert (Hshare_lo : 0 <= or_0 parsed / total * 100).
    { rewrite Hor. apply Qmult_le_0_compat; [|discriminate].
      apply Qle_shift_div_l; [exact Hpos | lra]. }
    assert (Hshare_hi : or_0 parsed / total * 100 <= 100).
    { rewrite Hor.
      assert (parsed / total <= 1)
        by (apply Qle_shift_div_r; [exact Hpos | lra]).
      lra. }
    destruct (toFixed_1_percentage _ Hshare_lo Hshare_hi)
      as (n & Hn & Hs & Hnear).
    exists n. split; [exact Hn|]. split.
    + rewrite <- Hor. exact Hnear.
    + rewrite Hs. reflexivity.
Qed.

End DecimalProperties.

Lemma alert_banner_detail_witness :
  0 <= percentage low_alert /\ percentage low_alert <= 100
  /\ exists n : Z,
       (0 <= n <= 1000)%Z
       /\ Qabs (percentage low_alert - inject_Z n / 10) <= 1 # 20
       /\ alertBanner no_fraction (Some low_alert)
          = Some {| banner_class :=
                      match level low_alert with
                      | high => "bg-red-100 border-red-500 text-red-700"
                      | low => "bg-yellow-100 border-yellow-500 text-yellow-700"
                      end%string;
                    banner_message := message low_alert;
                    banner_detail :=
                      ("Disengagement: "
                       ++ (digits (n / 10) ++ "." ++ digits (n mod 10))
                       ++ "%")%string |}.
Proof.
  assert (Hlo : 0 <= percentage low_alert) by discriminate.
  assert (Hhi : percentage low_alert <= 100) by discriminate.
  split; [exact Hlo|]. split; [exact Hhi|].
  exact (alert_banner_detail no_fraction low_alert Hlo Hhi).
Defined.

Lemma floating_window_matches_stats_witness :
  0 <= 200 # 3 /\ 200 # 3 <= 100
  /\ floatingScoreText no_fraction (Some (200 # 3))
     = score_text (renderEngagement no_fraction (Some (200 # 3))).
Proof.
  assert (Hlo : 0 <= 200 # 3) by discriminate.
  assert (Hhi : 200 # 3 <= 100) by discriminate.
  split; [exact Hlo|]. split; [exact Hhi|].
  apply (floating_window_matches_stats no_fraction (200 # 3) Hlo Hhi).
Defined.

Lemma tooltip_percentage_witness :
  (fold_left Qplus [] 0 <= 0
   /\ tooltipLabel no_fraction "Happy" 0 []
      = ("Happy" ++ ": " ++ Number_toString no_fraction (or_0 0) ++ " (0%)")%string)
  /\ (Forall (fun v => 0 <= v) [2; 1] /\ In 2 [2; 1]
      /\ 0 < fold_left Qplus [2; 1] 0
      /\ exists n : Z,
           (0 <= n <= 1000)%Z
           /\ Qabs (2 / fold_left Qplus [2; 1] 0 * 100 - inject_Z n / 10)
              <= 1 # 20
           /\ tooltipLabel no_fraction "Happy" 2 [2; 1]
              = ("Happy" ++ ": " ++ Number_toString no_fraction (or_0 2) ++ " ("
                 ++ (digits (n / 10) ++ "." ++ digits (n mod 10))
                 ++ "%)")%string).
Proof.
  split.
  - assert (Hzero : fold_left Qplus [] 0 <= 0) by discriminate.
    split; [exact Hzero|].
    destruct (tooltip_percentage no_fraction "Happy" 0 []) as [Hnone _].
    exact (Hnone Hzero).
  - assert (Hall : Forall (fun v => 0 <= v) [2; 1])
      by (repeat constructor; discriminate).
    assert (Hin : In 2 [2; 1]) by (left; reflexivity).
    assert (Hpos : 0 < fold_left Qplus [2; 1] 0) by reflexivity.
    split; [exact Hall|]. split; [exact Hin|]. split; [exact Hpos|].
    destruct (tooltip_percentage no_fraction "Happy" 2 [2; 1]) as [_ Hshare].
    exact (Hshare Hall Hin Hpos).
Defined.

(** * Properties of the detected-faces list *)

Lemma pushDetectedFace_bounded {A} (face : A) (prev : list A) :
  (length prev <= 10)%nat ->
  pushDetectedFace face prev = slice_last 10 (prev ++ [face]).
Proof.
  intros Hlen. unfold pushDetectedFace.
  destruct (Nat.ltb_spec (length prev) 50); [reflexivity | lia].
Qed.

Lemma detect_all_slice {A} (faces : list A) : forall prev : list A,
  (length prev <= 10)%nat ->
  detect_all faces prev = slice_last 10 (prev ++ faces).
Proof.
  induction faces as [|face faces IH]; intros prev Hlen; simpl.
  - rewrite app_nil_r. symmetry. apply slice_last_all. exact Hlen.
  - rewrite (pushDetectedFace_bounded face prev Hlen).
    rewrite IH by (rewrite slice_last_length; lia).
    rewrite slice_last_slice_last_app, <- app_assoc. reflexivity.
Qed.

(** The list of detected faces holds the last ten detections: it never
    grows beyond 10, so the guard against 50 faces never stops a push and
    every detection is recorded. *)
Theorem detected_faces_last_10 {A} (faces : list A) :
  detect_all faces [] = slice_last 10 faces
  /\ (length (detect_all faces []) <= 10)%nat
  /\ forall face : A, last (detect_all (faces ++ [face]) []) = Some face.
Proof.
  assert (Hall : forall fs : list A, detect_all fs [] = slice_last 10 fs).
  { intros fs. apply (detect_all_slice fs []). simpl. lia. }
  split; [apply Hall|]. split.
  - rewrite Hall, slice_last_length. lia.
  - intros face. rewrite Hall.
    change 10%nat with (S 9). rewrite slice_last_snoc. apply last_snoc.
Qed.

(** * The page as it runs *)

Lemma run_page_app (events events' : list PageEvent) (p : Page) :
  run_page (events ++ events') p = run_page events' (run_page events p).
Proof. unfold run_page. apply fold_left_app. Qed.

Lemma run_page_snoc (events : list PageEvent) (ev : PageEvent) (p : Page) :
  run_page (events ++ [ev]) p = page_step (run_page events p) ev.
Proof. rewrite run_page_app. reflexivity. Qed.

(** The view of the running page is the view after the updates among the
    events: tracking and the interval do not touch it. *)
Lemma run_page_view (events : list PageEvent) : forall p : Page,
  view (run_page events p) = deliver (updates_of events) (view p).
Proof.
  induction events as [|ev events IH]; intros p; [reflexivity|].
  change (run_page (ev :: events) p) with (run_page events (page_step p ev)).
  rewrite IH. destruct ev as [now data response| | |response]; simpl.
  - reflexivity.
  - destruct (isTracking p); reflexivity.
  - reflexivity.
  - destruct (interval p); reflexivity.
Qed.

(** Updates leave the interval and its function as they are. *)
Lemma updates_keep_interval (after : list PageEvent) : forall p : Page,
  Forall is_update after ->
  interval (run_page after p) = interval p
  /\ isTracking (run_page after p) = isTracking p.
Proof.
  induction after as [|ev after IH]; intros p Hall; [split; reflexivity|].
  inversion Hall as [|? ? Hev Hrest]; subst.
  change (run_page (ev :: after) p) with (run_page after (page_step p ev)).
  destruct (IH (page_step p ev) Hrest) as [-> ->].
  destruct ev; try contradiction. split; reflexivity.
Qed.

(** What the handler's stats request sets: the first render's values. *)
Lemma update_sets_first_render (p : Page) (now : Z) (data : EmotionData)
    (n : Z) (pct : gmap string Q) (al : option Alert) :
  sessionStats (page_step p (EmotionUpdate now data (mkResponse true n pct al)))
  = Some {| response_fields := mkResponse true n pct al;
            engagement_score := engagementScore [];
            participant_count := 0 |}.
Proof. reflexivity. Qed.

(** C1: the claim is that the engagement score is computed over the 10 most
    recent delivered events.  [fetchSessionStats] computes the claim's
    formula on the timeline it has in scope (last conjunct), but on the page
    that timeline is not the current one.  The request made by the update
    handler is the first render's, whose timeline is empty: after every
    update the page sets the score 50, whatever was delivered.  The request
    made by the interval is that of the render in which tracking started:
    it scores the events delivered before, not those delivered since.  Ten
    angry events score 0 by the claim and 50 on the page; after three happy
    events, the start of tracking and ten angry events the interval sets
    100. *)
Theorem page_score_is_stale :
  (forall (events : list PageEvent) (now : Z) (data : EmotionData)
          (n : Z) (pct : gmap string Q) (al : option Alert),
     engagement_score <$>
       sessionStats (run_page (events ++ [EmotionUpdate now data
                                            (mkResponse true n pct al)])
                       initialPage)
     = Some (engagementScore []))
  /\ engagementScore [] == 50
  /\ (forall (before after : list PageEvent)
             (n : Z) (pct : gmap string Q) (al : option Alert),
        isTracking (run_page before initialPage) = false ->
        Forall is_update after ->
        engagement_score <$>
          sessionStats (run_page (before ++ StartTracking :: after
                                    ++ [IntervalTick (mkResponse true n pct al)])
                          initialPage)
        = Some (engagementScore
                  (emotionTimeline (view (run_page before initialPage)))))
  /\ (engagement_score <$> sessionStats (run_page ten_angry_events initialPage)
      = Some (engagementScore [])
      /\ engagementScore
           (emotionTimeline (view (run_page ten_angry_events initialPage)))
         == 0
      /\ Design.score_labels (repeat Design.angry 10) == 0)
  /\ (exists s : Q,
        engagement_score <$>
          sessionStats (run_page (three_happy_events ++ StartTracking
                                    :: ten_angry_events
                                    ++ [IntervalTick quiet_response])
                          initialPage)
        = Some s
        /\ s == 100
        /\ engagementScore
             (emotionTimeline
                (view (run_page (three_happy_events ++ StartTracking
                                   :: ten_angry_events
                                   ++ [IntervalTick quiet_response])
                         initialPage)))
           == 0)
  /\ (forall (tl : list EmotionData) (labels : list Design.EmotionLabel),
        map emotion tl = map Design.label_name labels ->
        engagementScore tl == Design.score_labels labels
        /\ length_or_1 (slice_last 10 tl)
           = Z.max 1 (Z.of_nat (length (slice_last 10 tl)))).
Proof.
  split.
  { intros events now data n pct al.
    rewrite run_page_snoc, update_sets_first_render. reflexivity. }
  split; [reflexivity|].
  split.
  { intros before after n pct al Hidle Hupdates.
    rewrite run_page_app.
    change (run_page (StartTracking :: ?l) ?p)
      with (run_page l (page_step p StartTracking)).
    rewrite run_page_snoc.
    set (started := page_step (run_page before initialPage) StartTracking).
    destruct (updates_keep_interval after started Hupdates) as [Hint _].
    assert (Hstarted : interval started
                       = Some (view (run_page before initialPage))).
    { unfold started. simpl. rewrite Hidle. reflexivity. }
    unfold page_step at 1. rewrite Hint, Hstarted.
    reflexivity. }
  split.
  { split; [reflexivity|]. split; vm_compute; reflexivity. }
  split.
  { eexists. split; [reflexivity|]. split; vm_compute; reflexivity. }
  intros tl labels Hmap.
  split; [exact (engagementScore_labels tl labels Hmap) | apply length_or_1_max].
Qed.

Lemma page_score_is_stale_witness :
  (isTracking (run_page three_happy_events initialPage) = false
   /\ Forall is_update ten_angry_events
   /\ engagement_score <$>
        sessionStats (run_page (three_happy_events ++ StartTracking
                                  :: ten_angry_events
                                  ++ [IntervalTick (mkResponse true 3 ∅ None)])
                        initialPage)
      = Some (engagementScore
                (emotionTimeline (view (run_page three_happy_events initialPage)))))
  /\ (map emotion (map stamp three_updates) = map Design.label_name three_labels
      /\ engagementScore (map stamp three_updates)
         == Design.score_labels three_labels).
Proof.
  destruct page_score_is_stale as (_ & _ & Hinterval & _ & _ & Hformula).
  split.
  - assert (Hidle : isTracking (run_page three_happy_events initialPage) = false)
      by reflexivity.
    assert (Hupdates : Forall is_update ten_angry_events)
      by (repeat constructor).
    split; [exact Hidle|]. split; [exact Hupdates|].
    exact (Hinterval three_happy_events ten_angry_events 3%Z ∅ None
             Hidle Hupdates).
  - assert (Hmap : map emotion (map stamp three_updates)
                   = map Design.label_name three_labels) by reflexivity.
    split; [exact Hmap|]. apply (Hformula _ _ Hmap).
Defined.

(** C9: the claim is that the map never loses an entry, so that the
    reported participant count is the number of distinct participants seen
    and never decreases.  The map does behave so (first five conjuncts, on
    the view of the running page).  The reported count does not: the request
    made by the update handler is the first render's, whose map is empty, so
    after every update the page reports 0 participants.  With two
    participants the interval reports 2; when a third participant then
    reports, the page shows 0 while its map holds 3. *)
Theorem page_participant_count_is_stale (updates : list (Z * EmotionData))
    (st : ViewState) :
  dom (participantEmotions st) ⊆ dom (participantEmotions (deliver updates st))
  /\ (keys_length (participantEmotions st)
      <= keys_length (participantEmotions (deliver updates st)))%nat
  /\ dom (participantEmotions (deliver updates initialView))
     = list_to_set (ids_of updates)
  /\ keys_length (participantEmotions (deliver updates initialView))
     = length (remove_dups (ids_of updates))
  /\ (forall events : list PageEvent,
        view (run_page events initialPage)
        = deliver (updates_of events) initialView)
  /\ (forall (events : list PageEvent) (now : Z) (data : EmotionData)
             (n : Z) (pct : gmap string Q) (al : option Alert),
        participant_count <$>
          sessionStats (run_page (events ++ [EmotionUpdate now data
                                               (mkResponse true n pct al)])
                          initialPage)
        = Some 0%nat)
  /\ participant_count <$> sessionStats (run_page two_then_tick initialPage)
     = Some 2%nat
  /\ participant_count <$>
       sessionStats (run_page (two_then_tick ++ [third_joins]) initialPage)
     = Some 0%nat
  /\ keys_length
       (participantEmotions
          (view (run_page (two_then_tick ++ [third_joins]) initialPage)))
     = 3%nat.
Proof.
  destruct (participant_map_grows updates st) as (H1 & H2 & H3 & H4).
  split; [exact H1|]. split; [exact H2|]. split; [exact H3|].
  split; [exact H4|].
  split; [intros events; apply (run_page_view events initialPage)|].
  split.
  { intros events now data n pct al.
    rewrite run_page_snoc, update_sets_first_render. reflexivity. }
  split; [vm_compute; reflexivity|].
  split; vm_compute; reflexivity.
Qed.
